(** * HTLC atomic-swap transactions for Bitcoin: fee model, UTXO selection,
      transaction builders and the portable envelope.

    The development embeds
    - [swap/providers/bitcoin/utils.py]: [fee_calculator],
      [_get_previous_transaction_indexes], [is_transaction_raw],
      [decode_transaction_raw];
    - [shuttle/providers/bitcoin/transaction.py]: the classes [Transaction],
      [FundTransaction], [ClaimTransaction] and [RefundTransaction].

    Python integers are unbounded, hence [Z].  A raised exception is an
    explicit result.  Objects of the btcpy library (scripts, solvers,
    transactions) are kept as the constructor terms the code builds. *)

From Stdlib Require Import ZArith List String Bool Lia.
Import ListNotations.
Set Warnings "-register-all".
Open Scope string_scope.
Open Scope list_scope.
Open Scope Z_scope.

(** ** Exceptions and results *)

(** The exceptions of the language and of the repository, and those of the
    btcpy library: [OverflowError] for a value that does not fit its field,
    [LocktimeValueOutOfRange], [ScriptError] for the errors of its script
    parser (a wrong push operation, a script of the wrong type), and
    [SerializationError] for whatever it raises on a version or an input it
    cannot serialise. *)
Inductive exception : Type :=
| ValueError
| TypeError
| KeyError
| IndexError
| AttributeError
| BalanceError
| TransactionRawError
| Exception
| OverflowError
| LocktimeValueOutOfRange
| ScriptError
| SerializationError.

Inductive result (A : Type) : Type :=
| Ok (a : A)
| Err (e : exception).

Arguments Ok {A} a.
Arguments Err {A} e.

Definition bind {A B : Type} (r : result A) (k : A -> result B) : result B :=
  match r with
  | Ok a => k a
  | Err e => Err e
  end.

Notation "x <- r ;; k" := (bind r (fun x => k))
  (at level 61, r at next level, right associativity).

(** A method that mutates [self] either returns it or raises, and in both cases
    leaves an object behind. *)
Inductive outcome (S : Type) : Type :=
| Return (self : S)
| Raise (e : exception) (self : S).

Arguments Return {S} self.
Arguments Raise {S} e self.

Definition raised {S : Type} (o : outcome S) : option exception :=
  match o with
  | Return _ => None
  | Raise e _ => Some e
  end.

Definition object {S : Type} (o : outcome S) : S :=
  match o with
  | Return s => s
  | Raise _ s => s
  end.

(** ** Terms of the btcpy library

    btcpy is a third-party package: its values are kept as the terms the
    repository's code builds from them. *)

Module Btcpy.

(** Modelled from the spec: [utils.double_sha256] of the shuttle package is
    missing from the sources.  The secret hash "derived from the supplied
    preimage" is kept as the hash applied to its preimage, so two digests are
    equal exactly when they come from the same data. *)
Inductive Digest : Type :=
| double_sha256 (data : string).

(** An address: the one a wallet reports, or [script.address(mainnet=...)] of
    a script read from hex. *)
Inductive Address : Type :=
| Address_from_string (text : string)
| P2sh_address (script_hex : string) (mainnet : bool)
| P2pkh_address (script_hex : string) (mainnet : bool).

(** Modelled from the spec: [htlc.py] of the shuttle package is missing from
    the sources.  The contract script "is a pure function of the four inputs"
    (secret hash, recipient identity, sender identity, timeout) and changes
    when any of them changes: [HTLC_script] is their tuple. *)
Inductive Script : Type :=
| Script_unhexlify (hex : string)
| P2shScript_unhexlify (hex : string)
| P2pkhScript_unhexlify (hex : string)
| HTLC_script (secret_hash : Digest) (recipient_address sender_address : Address)
    (sequence : Z).

Record TxOut : Type := {
  value : Z;
  n : Z;
  script_pubkey : Script
}.

Inductive Branch : Type := IF | ELSE.

Inductive Solver : Type :=
| P2pkhSolver (private_key : string)
| HashlockSolver (preimage : string) (inner : Solver)
| IfElseSolver (branch : Branch) (inner : Solver)
| P2shSolver (redeem_script : Script) (redeem_script_solver : Solver)
| RelativeTimelockSolver (sequence : Z) (inner : Solver).

(** The sequence number a solver asks for: the one of the relative-timelock
    solver it contains, if any. *)
Fixpoint solver_sequence (solver : Solver) : option Z :=
  match solver with
  | P2pkhSolver _ => None
  | HashlockSolver _ inner => solver_sequence inner
  | IfElseSolver _ inner => solver_sequence inner
  | P2shSolver _ inner => solver_sequence inner
  | RelativeTimelockSolver sequence _ => Some sequence
  end.

(** The unlocking data of an input: the empty placeholder, or what [spend]
    leaves there, determined by the spent output and the solver. *)
Inductive ScriptSig : Type :=
| ScriptSig_empty
| ScriptSig_solved (txout : TxOut) (solver : Solver).

(** [Sequence.max()]: the value printed as ['sequence': '4294967295'], and
    serialised as [ffffffff], in the docstring of [decode_transaction_raw]. *)
Definition Sequence_max : Z := 0xffffffff.


Record TxIn : Type := {
  txid : string;
  txout : Z;
  script_sig : ScriptSig;
  sequence : Z
}.

Record MutableTransaction : Type := {
  version : Z;
  ins : list TxIn;
  outs : list TxOut;
  locktime : Z
}.

Definition solve_input (txin : TxIn) (txout : TxOut) (solver : Solver) : TxIn :=
  {| txid := txid txin; txout := Btcpy.txout txin;
     script_sig := ScriptSig_solved txout solver;
     sequence := match solver_sequence solver with
                 | Some sequence => sequence
                 | None => sequence txin
                 end |}.

Fixpoint solve_inputs (ins : list TxIn) (txouts : list TxOut)
    (solvers : list Solver) : list TxIn :=
  match ins, txouts, solvers with
  | txin :: ins, txout :: txouts, solver :: solvers =>
      solve_input txin txout solver :: solve_inputs ins txouts solvers
  | _, _, _ => []
  end.

(** [MutableTransaction.spend(txouts, solvers)]: one spent output and one
    solver per input, else [ValueError]; the model records on every input the
    spent output and the solver that unlock it, and a solver with a relative
    timelock sets the input's sequence number to its own. *)
Definition spend (tx : MutableTransaction) (txouts : list TxOut)
    (solvers : list Solver) : result MutableTransaction :=
  if negb (Nat.eqb (List.length solvers) (List.length (ins tx)))
     || negb (Nat.eqb (List.length txouts) (List.length solvers))
  then Err ValueError
  else Ok {| version := version tx;
             ins := solve_inputs (ins tx) txouts solvers;
             outs := outs tx;
             locktime := locktime tx |}.

(** What the library checks when the code parses a script or constructs a
    transaction, as far as the code cannot decide it itself: whether
    [P2shScript.unhexlify] and [P2pkhScript.unhexlify] accept a hex string,
    and whether the version and the inputs can be serialised (the
    constructor serialises the transaction to compute its id). *)
Class Library : Type := {
  is_p2sh : string -> bool;
  is_p2pkh : string -> bool;
  serializes : Z -> list TxIn -> bool
}.

Section Checked.
Context `{Library}.

(** [P2shScript.unhexlify(hex)] *)
Definition unhexlify_P2sh (hex : string) : result Script :=
  if is_p2sh hex then Ok (P2shScript_unhexlify hex) else Err ScriptError.

(** [P2pkhScript.unhexlify(hex)] *)
Definition unhexlify_P2pkh (hex : string) : result Script :=
  if is_p2pkh hex then Ok (P2pkhScript_unhexlify hex) else Err ScriptError.

(** [Locktime(n)]: 32 bits. *)
Definition Locktime (n : Z) : result Z :=
  if (0 <=? n) && (n <? 2 ^ 32) then Ok n else Err LocktimeValueOutOfRange.

(** An output value is serialised on 8 bytes, unsigned. *)
Fixpoint check_values (outs : list TxOut) : result unit :=
  match outs with
  | [] => Ok tt
  | out :: rest =>
      if (0 <=? value out) && (value out <? 2 ^ 64)
      then check_values rest
      else Err OverflowError
  end.

(** [MutableTransaction(version, ins, outs, locktime)], the locktime already
    constructed. *)
Definition new_transaction (version : Z) (ins : list TxIn) (outs : list TxOut)
    (locktime : Z) : result MutableTransaction :=
  if negb (serializes version ins) then Err SerializationError
  else
    match check_values outs with
    | Err e => Err e
    | Ok _ => Ok {| version := version; ins := ins; outs := outs;
                    locktime := locktime |}
    end.

End Checked.

End Btcpy.

(** ** JSON values, as [json.loads] returns them and [json.dumps] takes them *)

Inductive json : Type :=
| JNull
| JBool (b : bool)
| JInt (z : Z)
| JStr (s : string)
| JList (items : list json)
| JDict (fields : list (string * json)).

Fixpoint lookup (key : string) (fields : list (string * json)) : option json :=
  match fields with
  | [] => None
  | (k, v) :: rest => if String.eqb k key then Some v else lookup key rest
  end.

(** [obj[key]] for a string key: a missing key is [KeyError], and an object
    that is not a dict cannot be indexed by a string. *)
Definition getitem (obj : json) (key : string) : result json :=
  match obj with
  | JDict fields =>
      match lookup key fields with
      | Some v => Ok v
      | None => Err KeyError
      end
  | _ => Err TypeError
  end.

(** What the code reads from btcpy about a finished transaction:
    [tx.hexlify()], [tx.txid] and [tx.to_json()], and [str(address)]. *)
Class Serializer : Type := {
  hexlify : Btcpy.MutableTransaction -> string;
  transaction_id : Btcpy.MutableTransaction -> string;
  to_json : Btcpy.MutableTransaction -> json;
  address_str : Btcpy.Address -> string
}.

(** The text of an envelope: [b64encode(str(json.dumps(d)).encode()).decode()]
    on the way out, and [json.loads(b64decode(clean_transaction_raw(s).encode())
    .decode())] on the way in, [None] when any of these calls raises. *)
Class Codec : Type := {
  b64_json_dumps : json -> string;
  b64_json_loads : string -> option json
}.


(** What [decode_transaction_raw] asks outside the repository, each of which
    may raise.  [select_network]: offline, [stp(network, strict=True)];
    otherwise the endpoint and token that [config] holds for the network.
    [decode_transaction]: offline, [MutableTransaction.unhexlify(raw)
    .to_json()]; otherwise the answer of the decoding service. *)
Class TransactionView : Type := {
  select_network : bool -> json -> result unit;
  decode_transaction : bool -> json -> json -> result json
}.

(** ** swap/providers/bitcoin/utils.py *)

Module Utils.

(** [fee_calculator(transaction_input, transaction_output)] *)
Definition fee_calculator (transaction_input transaction_output : Z) : Z :=
  let transaction_input := ((transaction_input - 1) * 444) + 576 in
  let transaction_output := ((transaction_output - 1) * 102) in
  transaction_input + transaction_output.

(** The loop shared by [_get_previous_transaction_indexes] and
    [FundTransaction.get_previous_transaction_indexes]: [for index, utxo in
    enumerate(utxos)] with the running [temp_amount], the list built so far
    and the [break].  [value_of] reads the amount key of a UTXO. *)
Fixpoint indexes_loop {U : Type} (value_of : U -> Z) (utxos : list U)
    (amount : Z) (index : nat) (temp_amount : Z)
    (previous_transaction_indexes : list nat) : list nat :=
  match utxos with
  | [] => previous_transaction_indexes
  | utxo :: rest =>
      let temp_amount := temp_amount + value_of utxo in
      if temp_amount >? amount + fee_calculator (Z.of_nat index + 1) 2
      then previous_transaction_indexes ++ [index]
      else indexes_loop value_of rest amount (S index) temp_amount
             (previous_transaction_indexes ++ [index])
  end.

(** A UTXO as the address API reports it. *)
Record utxo : Type := {
  tx_hash : string;
  tx_output_n : Z;
  value : Z;
  script : string
}.

Definition _get_previous_transaction_indexes (utxos : list utxo) (amount : Z)
  : list nat :=
  indexes_loop value utxos amount 0%nat 0 [].

Definition recognized_types : list string :=
  [ "bitcoin_fund_unsigned"; "bitcoin_fund_signed";
    "bitcoin_claim_unsigned"; "bitcoin_claim_signed";
    "bitcoin_refund_unsigned"; "bitcoin_refund_signed" ].

(** [v in [...]] for a list of strings: only a string equals one of them. *)
Definition is_in (v : json) (strings : list string) : bool :=
  match v with
  | JStr s => existsb (String.eqb s) strings
  | _ => false
  end.

Section Decoding.
Context `{Codec} `{TransactionView}.

(** [is_transaction_raw(transaction_raw)]: whatever is raised inside the [try]
    is answered by [False]. *)
Definition is_transaction_raw (transaction_raw : string) : bool :=
  match b64_json_loads transaction_raw with
  | None => false
  | Some loads_transaction_raw =>
      match getitem loads_transaction_raw "type" with
      | Ok type => is_in type recognized_types
      | Err _ => false
      end
  end.

(** [decode_transaction_raw(transaction_raw, offline=True)].  The second
    decoding of the same text cannot fail after the first; the codec's errors
    are [ValueError]s. *)
Definition decode_transaction_raw (transaction_raw : string) (offline : bool)
  : result json :=
  if negb (is_transaction_raw transaction_raw)
  then Err TransactionRawError
  else
    match b64_json_loads transaction_raw with
    | None => Err ValueError
    | Some loaded_transaction_raw =>
        network <- getitem loaded_transaction_raw "network" ;;
        _ <- select_network offline network ;;
        raw <- getitem loaded_transaction_raw "raw" ;;
        decoded_transaction <- decode_transaction offline network raw ;;
        fee <- getitem loaded_transaction_raw "fee" ;;
        type <- getitem loaded_transaction_raw "type" ;;
        network <- getitem loaded_transaction_raw "network" ;;
        Ok (JDict [("fee", fee); ("type", type);
                   ("tx", decoded_transaction); ("network", network)])
    end.

End Decoding.

End Utils.


(** ** shuttle/providers/bitcoin/transaction.py *)

Module Shuttle.
Import Btcpy.

(** An unspent output as [wallet.unspent()] lists it. *)
Record utxo : Type := {
  hash : string;
  output_index : Z;
  amount : Z;
  script : string
}.

(** The wallet, by what the builders ask of it: [unspent()], [p2pkh()] and
    [address()]. *)
Record Wallet : Type := {
  unspent : list utxo;
  p2pkh : string;
  address : Address
}.

(** The contract handed to the Fund builder, by its [hash()]. *)
Record HTLC : Type := {
  htlc_hash : string
}.

(** The [script] attribute of [HTLC(network).init(secret_hash,
    recipient_address, sender_address, sequence)]. *)
Definition HTLC_init (network : string) (secret_hash : Digest)
    (recipient_address sender_address : Address) (sequence : Z) : Script :=
  HTLC_script secret_hash recipient_address sender_address sequence.

(** Modelled from the spec: [solver.py] of the shuttle package is missing from
    the sources.  The attributes are the ones [sign] reads; [solve()] follows
    the Solver Strategy section: the Fund solver "needs only a private key",
    the Claim solver "needs a private key and the secret preimage" and selects
    the claim branch, the Refund solver "needs only a private key and selects
    the refund branch", whose unlock "requires the input's relative-timeout
    field to be >= timeout": its solver carries the sequence. *)
Record FundSolver : Type := {
  fund_private_key : string
}.

Record ClaimSolver : Type := {
  claim_secret : string;
  claim_private_key : string;
  claim_sequence : Z
}.

Record RefundSolver : Type := {
  refund_secret : string;
  refund_private_key : string;
  refund_sequence : Z
}.

Definition FundSolver_solve (solver : FundSolver) : Solver :=
  P2pkhSolver (fund_private_key solver).

Definition ClaimSolver_solve (solver : ClaimSolver) : Solver :=
  IfElseSolver IF
    (HashlockSolver (claim_secret solver) (P2pkhSolver (claim_private_key solver))).

Definition RefundSolver_solve (solver : RefundSolver) : Solver :=
  IfElseSolver ELSE
    (RelativeTimelockSolver (refund_sequence solver)
       (P2pkhSolver (refund_private_key solver))).

(** *** class Transaction *)

Module Transaction.

Record t : Type := {
  version : Z;
  transaction : option MutableTransaction;
  network : string;
  fee : Z
}.

(** [__init__(version=2, network="testnet")] *)
Definition init (version : Z) (network : string) : t :=
  {| version := version; transaction := None; network := network; fee := 0 |}.

Definition set_fee (self : t) (fee : Z) : t :=
  {| version := version self; transaction := transaction self;
     network := network self; fee := fee |}.

Definition set_transaction (self : t) (tx : option MutableTransaction) : t :=
  {| version := version self; transaction := tx;
     network := network self; fee := fee self |}.

Section Views.
Context `{Serializer}.

Definition hash (self : t) : result string :=
  match transaction self with
  | None => Err ValueError
  | Some tx => Ok (transaction_id tx)
  end.

Definition json (self : t) : result json :=
  match transaction self with
  | None => Err ValueError
  | Some tx => Ok (to_json tx)
  end.

Definition raw (self : t) : result string :=
  match transaction self with
  | None => Err ValueError
  | Some tx => Ok (hexlify tx)
  end.

End Views.

(** [previous_transaction_indexes is None or index in
    previous_transaction_indexes] *)
Definition selected (previous_transaction_indexes : option (list nat))
    (index : nat) : bool :=
  match previous_transaction_indexes with
  | None => true
  | Some indexes => existsb (Nat.eqb index) indexes
  end.

Definition new_input (u : utxo) : TxIn :=
  {| txid := Shuttle.hash u; txout := output_index u;
     script_sig := ScriptSig_empty; sequence := Sequence_max |}.

Fixpoint inputs_loop (utxos : list utxo)
    (previous_transaction_indexes : option (list nat)) (index : nat)
    (inputs : list TxIn) (amount : Z) : list TxIn * Z :=
  match utxos with
  | [] => (inputs, amount)
  | u :: rest =>
      if selected previous_transaction_indexes index
      then inputs_loop rest previous_transaction_indexes (S index)
             (inputs ++ [new_input u]) (amount + Shuttle.amount u)
      else inputs_loop rest previous_transaction_indexes (S index) inputs amount
  end.

(** [inputs(utxos, previous_transaction_indexes=None)] *)
Definition inputs (utxos : list utxo)
    (previous_transaction_indexes : option (list nat)) : list TxIn * Z :=
  inputs_loop utxos previous_transaction_indexes 0%nat [] 0.

Definition new_output (u : utxo) : TxOut :=
  {| value := amount u; n := output_index u;
     script_pubkey := Script_unhexlify (script u) |}.

Fixpoint outputs_loop (utxos : list utxo)
    (previous_transaction_indexes : option (list nat)) (index : nat)
    (outputs : list TxOut) : list TxOut :=
  match utxos with
  | [] => outputs
  | u :: rest =>
      if selected previous_transaction_indexes index
      then outputs_loop rest previous_transaction_indexes (S index)
             (outputs ++ [new_output u])
      else outputs_loop rest previous_transaction_indexes (S index) outputs
  end.

(** [outputs(utxos, previous_transaction_indexes=None)] *)
Definition outputs (utxos : list utxo)
    (previous_transaction_indexes : option (list nat)) : list TxOut :=
  outputs_loop utxos previous_transaction_indexes 0%nat [].

End Transaction.

(** *** class FundTransaction *)

Module FundTransaction.

Record t : Type := {
  base : Transaction.t;
  wallet : option Wallet;
  htlc : option HTLC;
  amount : option Z;
  unspent : option (list utxo);
  previous_transaction_indexes : option (list nat)
}.

(** [__init__(version=2, network="testnet")] *)
Definition init (version : Z) (network : string) : t :=
  {| base := Transaction.init version network;
     wallet := None; htlc := None; amount := None; unspent := None;
     previous_transaction_indexes := None |}.

Definition set_base (self : t) (b : Transaction.t) : t :=
  {| base := b; wallet := wallet self; htlc := htlc self;
     amount := amount self; unspent := unspent self;
     previous_transaction_indexes := previous_transaction_indexes self |}.

Definition set_previous_transaction_indexes (self : t)
    (indexes : option (list nat)) : t :=
  {| base := base self; wallet := wallet self; htlc := htlc self;
     amount := amount self; unspent := unspent self;
     previous_transaction_indexes := indexes |}.

(** [get_previous_transaction_indexes(amount=None)].  Iterating a missing
    [self.unspent], or adding the fee to a missing amount inside the loop, is
    a [TypeError].  [fee_calculator] is the one of utils.py. *)
Definition get_previous_transaction_indexes (self : t) (amount : option Z)
  : result (list nat) :=
  let amount :=
    match amount with
    | None => FundTransaction.amount self
    | Some a => Some a
    end in
  match unspent self with
  | None => Err TypeError
  | Some utxos =>
      match amount, utxos with
      | Some amount, _ =>
          Ok (Utils.indexes_loop Shuttle.amount utxos amount 0%nat 0 [])
      | None, [] => Ok []
      | None, _ :: _ => Err TypeError
      end
  end.

Section Building.
Context `{Library}.

(** The transaction [build_transaction] constructs once the balance check has
    passed: both scripts are parsed, then the locktime and the transaction are
    constructed. *)
Definition funding_transaction (version : Z) (inputs : list TxIn)
    (wallet : Wallet) (htlc : HTLC) (amount accumulated fee locktime : Z)
  : result MutableTransaction :=
  contract_script <- unhexlify_P2sh (htlc_hash htlc) ;;
  change_script <- unhexlify_P2pkh (p2pkh wallet) ;;
  locktime <- Locktime locktime ;;
  new_transaction version inputs
    [ {| value := amount; n := 0; script_pubkey := contract_script |};
      {| value := accumulated - (fee + amount); n := 1;
         script_pubkey := change_script |} ]
    locktime.

(** [build_transaction(wallet, htlc, amount, locktime=0)]; the [isinstance]
    checks are the types of the arguments. *)
Definition build_transaction (self : t) (wallet : Wallet) (htlc : HTLC)
    (amount : Z) (locktime : Z) : outcome t :=
  let self :=
    {| base := base self; wallet := Some wallet; htlc := Some htlc;
       amount := Some amount; unspent := Some (Shuttle.unspent wallet);
       previous_transaction_indexes := previous_transaction_indexes self |} in
  match get_previous_transaction_indexes self (Some amount) with
  | Err e => Raise e self
  | Ok indexes =>
      let self := set_previous_transaction_indexes self (Some indexes) in
      let '(inputs, accumulated) :=
        Transaction.inputs (Shuttle.unspent wallet) (Some indexes) in
      let fee := Utils.fee_calculator (Z.of_nat (List.length inputs)) 2 in
      let self := set_base self (Transaction.set_fee (base self) fee) in
      if accumulated <? amount + fee
      then Raise BalanceError self
      else
        match funding_transaction (Transaction.version (base self)) inputs
                wallet htlc amount accumulated fee locktime with
        | Err e => Raise e self
        | Ok tx =>
            Return (set_base self
                      (Transaction.set_transaction (base self) (Some tx)))
        end
  end.

End Building.

(** [not x] for a list attribute that may still be [None]. *)
Definition falsy {A : Type} (x : option (list A)) : bool :=
  match x with
  | None | Some [] => true
  | Some (_ :: _) => false
  end.

(** [sign(solver)] *)
Definition sign (self : t) (solver : FundSolver) : outcome t :=
  match unspent self, previous_transaction_indexes self,
        Transaction.transaction (base self) with
  | Some (u :: us), Some (_ :: _), Some tx =>
      let outputs :=
        Transaction.outputs (u :: us) (previous_transaction_indexes self) in
      match spend tx outputs (map (fun _ => FundSolver_solve solver) outputs) with
      | Ok tx => Return (set_base self
                           (Transaction.set_transaction (base self) (Some tx)))
      | Err e => Raise e self
      end
  | _, _, _ => Raise ValueError self
  end.

Definition envelope_output (u : utxo) : json :=
  JDict [("amount", JInt (Shuttle.amount u)); ("n", JInt (output_index u));
         ("script", JStr (script u))].

Fixpoint envelope_outputs (utxos : list utxo)
    (previous_transaction_indexes : option (list nat)) (index : nat)
    (outputs : list json) : list json :=
  match utxos with
  | [] => outputs
  | u :: rest =>
      if Transaction.selected previous_transaction_indexes index
      then envelope_outputs rest previous_transaction_indexes (S index)
             (outputs ++ [envelope_output u])
      else envelope_outputs rest previous_transaction_indexes (S index) outputs
  end.

Section Envelope.
Context `{Serializer} `{Codec}.

(** The dict [unsigned_raw] hands to [json.dumps]. *)
Definition unsigned_envelope (self : t) : result json :=
  match Transaction.transaction (base self), unspent self with
  | Some tx, Some (u :: us) =>
      Ok (JDict [("fee", JInt (Transaction.fee (base self)));
                 ("raw", JStr (hexlify tx));
                 ("outputs", JList (envelope_outputs (u :: us)
                                      (previous_transaction_indexes self) 0%nat []));
                 ("type", JStr "fund_unsigned")])
  | _, _ => Err ValueError
  end.

(** [unsigned_raw()] *)
Definition unsigned_raw (self : t) : result string :=
  envelope <- unsigned_envelope self ;; Ok (b64_json_dumps envelope).

End Envelope.

End FundTransaction.

(** *** What [get_transaction_detail] reports of a transaction *)

Record detail_output : Type := {
  detail_value : Z;
  detail_script : string
}.

(** The ["outputs"] entry of the detail, [None] when the key is absent. *)
Definition transaction_detail : Type := option (list detail_output).

(** *** class ClaimTransaction *)

Module ClaimTransaction.

Record t : Type := {
  base : Transaction.t;
  wallet : Wallet;
  htlc_transaction_id : string;
  htlc_transaction_detail : list detail_output;
  htlc : detail_output;
  htlc_value : Z;
  htlc_script : Script;
  htlc_address : Address;
  sender_script : Script;
  sender_address : Address
}.

(** [__init__(htlc_hash, wallet, network="testnet", version=2)], given what
    [get_transaction_detail(htlc_hash)] answered.  The first output is read
    and its script parsed before the second output is looked at. *)
Definition init `{Library} (htlc_hash : string) (wallet : Wallet)
    (network : string) (version : Z) (detail : transaction_detail) : result t :=
  let mainnet := String.eqb network "mainnet" in
  match detail with
  | None => Err Exception
  | Some [] => Err IndexError
  | Some (htlc :: others) =>
      htlc_script <- unhexlify_P2sh (detail_script htlc) ;;
      match others with
      | [] => Err IndexError
      | change :: _ =>
          sender_script <- unhexlify_P2pkh (detail_script change) ;;
          Ok {| base := Transaction.init version network;
                wallet := wallet;
                htlc_transaction_id := htlc_hash;
                htlc_transaction_detail := htlc :: others;
                htlc := htlc;
                htlc_value := detail_value htlc;
                htlc_script := htlc_script;
                htlc_address := P2sh_address (detail_script htlc) mainnet;
                sender_script := sender_script;
                sender_address := P2pkh_address (detail_script change) mainnet |}
      end
  end.

Definition set_base (self : t) (b : Transaction.t) : t :=
  {| base := b; wallet := wallet self;
     htlc_transaction_id := htlc_transaction_id self;
     htlc_transaction_detail := htlc_transaction_detail self;
     htlc := htlc self; htlc_value := htlc_value self;
     htlc_script := htlc_script self; htlc_address := htlc_address self;
     sender_script := sender_script self;
     sender_address := sender_address self |}.

(** [build_transaction(locktime=0)]: the fee is recorded, the wallet's script
    parsed, the locktime and the transaction constructed. *)
Definition build_transaction `{Library} (self : t) (locktime : Z) : outcome t :=
  let self :=
    set_base self (Transaction.set_fee (base self) (Utils.fee_calculator 1 1)) in
  match
    (script <- unhexlify_P2pkh (p2pkh (wallet self)) ;;
     locktime <- Locktime locktime ;;
     new_transaction (Transaction.version (base self))
       [ {| txid := htlc_transaction_id self; txout := 0;
            script_sig := ScriptSig_empty; sequence := Sequence_max |} ]
       [ {| value := htlc_value self - Utils.fee_calculator 1 1; n := 0;
            script_pubkey := script |} ]
       locktime)
  with
  | Err e => Raise e self
  | Ok tx =>
      Return (set_base self (Transaction.set_transaction (base self) (Some tx)))
  end.

(** [sign(solver)]: the contract is built first; [self.transaction.spend] on a
    transaction that is still [None] is an [AttributeError]. *)
Definition sign (self : t) (solver : ClaimSolver) : outcome t :=
  let htlc :=
    HTLC_init (Transaction.network (base self))
      (double_sha256 (claim_secret solver))
      (address (wallet self)) (sender_address self) (claim_sequence solver) in
  match Transaction.transaction (base self) with
  | None => Raise AttributeError self
  | Some tx =>
      match spend tx
              [ {| value := htlc_value self; n := 0;
                   script_pubkey := htlc_script self |} ]
              [ P2shSolver htlc (ClaimSolver_solve solver) ] with
      | Ok tx => Return (set_base self
                           (Transaction.set_transaction (base self) (Some tx)))
      | Err e => Raise e self
      end
  end.

Section Envelope.
Context `{Serializer} `{Codec}.

Definition unsigned_envelope (self : t) : result json :=
  match Transaction.transaction (base self) with
  | None => Err ValueError
  | Some tx =>
      Ok (JDict [("fee", JInt (Transaction.fee (base self)));
                 ("raw", JStr (hexlify tx));
                 ("outputs", JList [JDict [("amount", JInt (htlc_value self));
                                           ("n", JInt 0);
                                           ("script", JStr (detail_script (htlc self)))]]);
                 ("type", JStr "claim_unsigned");
                 ("recipient_address", JStr (address_str (address (wallet self))));
                 ("sender_address", JStr (address_str (sender_address self)))])
  end.

(** [unsigned_raw()] *)
Definition unsigned_raw (self : t) : result string :=
  envelope <- unsigned_envelope self ;; Ok (b64_json_dumps envelope).

End Envelope.

End ClaimTransaction.

(** *** class RefundTransaction *)

Module RefundTransaction.

Record t : Type := {
  base : Transaction.t;
  wallet : Wallet;
  htlc_transaction_id : string;
  htlc_transaction_detail : list detail_output;
  htlc : detail_output;
  htlc_value : Z;
  htlc_script : Script;
  htlc_address : Address;
  sender_script : Script;
  sender_address : Address
}.

(** [__init__(htlc_hash, wallet, network="testnet", version=2)], given what
    [get_transaction_detail(htlc_hash)] answered.  The first output is read
    and its script parsed before the second output is looked at. *)
Definition init `{Library} (htlc_hash : string) (wallet : Wallet)
    (network : string) (version : Z) (detail : transaction_detail) : result t :=
  let mainnet := String.eqb network "mainnet" in
  match detail with
  | None => Err Exception
  | Some [] => Err IndexError
  | Some (htlc :: others) =>
      htlc_script <- unhexlify_P2sh (detail_script htlc) ;;
      match others with
      | [] => Err IndexError
      | change :: _ =>
          sender_script <- unhexlify_P2pkh (detail_script change) ;;
          Ok {| base := Transaction.init version network;
                wallet := wallet;
                htlc_transaction_id := htlc_hash;
                htlc_transaction_detail := htlc :: others;
                htlc := htlc;
                htlc_value := detail_value htlc;
                htlc_script := htlc_script;
                htlc_address := P2sh_address (detail_script htlc) mainnet;
                sender_script := sender_script;
                sender_address := P2pkh_address (detail_script change) mainnet |}
      end
  end.

Definition set_base (self : t) (b : Transaction.t) : t :=
  {| base := b; wallet := wallet self;
     htlc_transaction_id := htlc_transaction_id self;
     htlc_transaction_detail := htlc_transaction_detail self;
     htlc := htlc self; htlc_value := htlc_value self;
     htlc_script := htlc_script self; htlc_address := htlc_address self;
     sender_script := sender_script self;
     sender_address := sender_address self |}.

(** [build_transaction(locktime=0)]: the fee is recorded, the wallet's script
    parsed, the locktime and the transaction constructed. *)
Definition build_transaction `{Library} (self : t) (locktime : Z) : outcome t :=
  let self :=
    set_base self (Transaction.set_fee (base self) (Utils.fee_calculator 1 1)) in
  match
    (script <- unhexlify_P2pkh (p2pkh (wallet self)) ;;
     locktime <- Locktime locktime ;;
     new_transaction (Transaction.version (base self))
       [ {| txid := htlc_transaction_id self; txout := 0;
            script_sig := ScriptSig_empty; sequence := Sequence_max |} ]
       [ {| value := htlc_value self - Transaction.fee (base self); n := 0;
            script_pubkey := script |} ]
       locktime)
  with
  | Err e => Raise e self
  | Ok tx =>
      Return (set_base self (Transaction.set_transaction (base self) (Some tx)))
  end.

(** [sign(solver)] *)
Definition sign (self : t) (solver : RefundSolver) : outcome t :=
  let htlc :=
    HTLC_init (Transaction.network (base self))
      (double_sha256 (refund_secret solver))
      (address (wallet self)) (sender_address self) (refund_sequence solver) in
  match Transaction.transaction (base self) with
  | None => Raise AttributeError self
  | Some tx =>
      match spend tx
              [ {| value := htlc_value self; n := 0;
                   script_pubkey := htlc_script self |} ]
              [ P2shSolver htlc (RefundSolver_solve solver) ] with
      | Ok tx => Return (set_base self
                           (Transaction.set_transaction (base self) (Some tx)))
      | Err e => Raise e self
      end
  end.

Section Envelope.
Context `{Serializer} `{Codec}.

Definition unsigned_envelope (self : t) : result json :=
  match Transaction.transaction (base self) with
  | None => Err ValueError
  | Some tx =>
      Ok (JDict [("fee", JInt (Transaction.fee (base self)));
                 ("raw", JStr (hexlify tx));
                 ("outputs", JList [JDict [("amount", JInt (htlc_value self));
                                           ("n", JInt 0);
                                           ("script", JStr (detail_script (htlc self)))]]);
                 ("type", JStr "refund_unsigned");
                 ("recipient_address", JStr (address_str (address (wallet self))));
                 ("sender_address", JStr (address_str (sender_address self)))])
  end.

(** [unsigned_raw()] *)
Definition unsigned_raw (self : t) : result string :=
  envelope <- unsigned_envelope self ;; Ok (b64_json_dumps envelope).

End Envelope.

End RefundTransaction.

End Shuttle.

(** The cached contract script of a Claim object replaced by another one. *)
Definition with_htlc_script (self : Shuttle.ClaimTransaction.t) (cached : Btcpy.Script)
  : Shuttle.ClaimTransaction.t :=
  {| Shuttle.ClaimTransaction.base := Shuttle.ClaimTransaction.base self;
     Shuttle.ClaimTransaction.wallet := Shuttle.ClaimTransaction.wallet self;
     Shuttle.ClaimTransaction.htlc_transaction_id := Shuttle.ClaimTransaction.htlc_transaction_id self;
     Shuttle.ClaimTransaction.htlc_transaction_detail :=
       Shuttle.ClaimTransaction.htlc_transaction_detail self;
     Shuttle.ClaimTransaction.htlc := Shuttle.ClaimTransaction.htlc self;
     Shuttle.ClaimTransaction.htlc_value := Shuttle.ClaimTransaction.htlc_value self;
     Shuttle.ClaimTransaction.htlc_script := cached;
     Shuttle.ClaimTransaction.htlc_address := Shuttle.ClaimTransaction.htlc_address self;
     Shuttle.ClaimTransaction.sender_script := Shuttle.ClaimTransaction.sender_script self;
     Shuttle.ClaimTransaction.sender_address := Shuttle.ClaimTransaction.sender_address self |}.

(** ** The portable format *)

Module Portable.



(** What an envelope carries besides its type. *)
Record metadata : Type := {
  fee : Z;
  raw : string;
  outputs : list json;
  network : string;
  addresses : option (string * string)
}.


Definition envelope (tag : string) (m : metadata) : json :=
  JDict ([("fee", JInt (fee m)); ("raw", JStr (raw m));
          ("outputs", JList (outputs m)); ("type", JStr tag);
          ("network", JStr (network m))]
         ++ match addresses m with
            | Some (recipient, sender) =>
                [("recipient_address", JStr recipient);
                 ("sender_address", JStr sender)]
            | None => []
            end).




End Portable.

(** ** Sample data *)

Module Sample.
Import Btcpy Shuttle.

(** Two outputs of 1678 and 5 units: the first alone is exactly 1000 units plus
    the fee for one input and two outputs. *)
Definition swap_utxos : list Utils.utxo :=
  [ {| Utils.tx_hash := "aa"; Utils.tx_output_n := 0;
       Utils.value := 1678; Utils.script := "76a9" |};
    {| Utils.tx_hash := "bb"; Utils.tx_output_n := 1;
       Utils.value := 5; Utils.script := "76a9" |} ].

Definition wallet_utxos : list utxo :=
  [ {| hash := "aa"; output_index := 0; amount := 1678; script := "76a9" |};
    {| hash := "bb"; output_index := 1; amount := 5; script := "76a9" |} ].

Definition sender_wallet : Wallet :=
  {| unspent := wallet_utxos; p2pkh := "76a914aa88ac";
     address := Address_from_string "msender" |}.

(** A wallet that cannot cover 1000 units: no prefix reaches the threshold. *)
Definition poor_wallet : Wallet :=
  {| unspent := [ {| hash := "cc"; output_index := 0; amount := 700;
                     script := "76a9" |};
                  {| hash := "dd"; output_index := 2; amount := 300;
                     script := "76a9" |} ];
     p2pkh := "76a914aa88ac";
     address := Address_from_string "msender" |}.

Definition poor_swap_utxos : list Utils.utxo :=
  [ {| Utils.tx_hash := "cc"; Utils.tx_output_n := 0;
       Utils.value := 700; Utils.script := "76a9" |};
    {| Utils.tx_hash := "dd"; Utils.tx_output_n := 2;
       Utils.value := 300; Utils.script := "76a9" |} ].

Definition recipient_wallet : Wallet :=
  {| unspent := []; p2pkh := "76a914bb88ac";
     address := Address_from_string "mrecipient" |}.

Definition contract : HTLC := {| htlc_hash := "a914cc87" |}.

(** A library for the samples: it takes a hex string that opens with the
    hash-and-push bytes of a script type for a script of that type, and
    serialises every version and input. *)
Definition library : Library :=
  {| is_p2sh := String.prefix "a914";
     is_p2pkh := String.prefix "76a914";
     serializes := fun _ _ => true |}.

Definition fund : FundTransaction.t := FundTransaction.init 2 "testnet".

(** The funding transaction as the node reports it: the contract output of
    10000 units first, the change output second. *)
Definition funding_detail : transaction_detail :=
  Some [ {| detail_value := 10000; detail_script := "a914cc87" |};
         {| detail_value := 500; detail_script := "76a914aa88ac" |} ].

(** A wallet whose first output covers 1000 units and the fee. *)
Definition rich_wallet : Wallet :=
  {| unspent := [ {| hash := "ee"; output_index := 1; amount := 5000;
                     script := "76a9" |} ];
     p2pkh := "76a914aa88ac";
     address := Address_from_string "msender" |}.

Definition claim : ClaimTransaction.t :=
  {| ClaimTransaction.base := Transaction.init 2 "testnet";
     ClaimTransaction.wallet := recipient_wallet;
     ClaimTransaction.htlc_transaction_id := "f00d";
     ClaimTransaction.htlc_transaction_detail :=
       [ {| detail_value := 10000; detail_script := "a914cc87" |};
         {| detail_value := 500; detail_script := "76a914aa88ac" |} ];
     ClaimTransaction.htlc :=
       {| detail_value := 10000; detail_script := "a914cc87" |};
     ClaimTransaction.htlc_value := 10000;
     ClaimTransaction.htlc_script := P2shScript_unhexlify "a914cc87";
     ClaimTransaction.htlc_address := P2sh_address "a914cc87" false;
     ClaimTransaction.sender_script := P2pkhScript_unhexlify "76a914aa88ac";
     ClaimTransaction.sender_address := P2pkh_address "76a914aa88ac" false |}.

Definition refund : RefundTransaction.t :=
  {| RefundTransaction.base := Transaction.init 2 "testnet";
     RefundTransaction.wallet := sender_wallet;
     RefundTransaction.htlc_transaction_id := "f00d";
     RefundTransaction.htlc_transaction_detail :=
       [ {| detail_value := 10000; detail_script := "a914cc87" |};
         {| detail_value := 500; detail_script := "76a914aa88ac" |} ];
     RefundTransaction.htlc :=
       {| detail_value := 10000; detail_script := "a914cc87" |};
     RefundTransaction.htlc_value := 10000;
     RefundTransaction.htlc_script := P2shScript_unhexlify "a914cc87";
     RefundTransaction.htlc_address := P2sh_address "a914cc87" false;
     RefundTransaction.sender_script := P2pkhScript_unhexlify "76a914aa88ac";
     RefundTransaction.sender_address := P2pkh_address "76a914aa88ac" false |}.

Definition fund_solver : FundSolver := {| fund_private_key := "92cb" |}.

Definition claim_solver : ClaimSolver :=
  {| claim_secret := "Hello Meheret!"; claim_private_key := "6bc9";
     claim_sequence := 5 |}.

(** Two refund solvers of a contract with timeout 5 that differ in the secret
    only. *)
Definition refund_solver : RefundSolver :=
  {| refund_secret := "Hello Meheret!"; refund_private_key := "92cb";
     refund_sequence := 5 |}.

Definition refund_solver' : RefundSolver :=
  {| refund_secret := "another secret"; refund_private_key := "92cb";
     refund_sequence := 5 |}.

(** The envelope of the docstring of [decode_transaction_raw], its raw
    transaction shortened. *)
Definition docstring_envelope : json :=
  JDict [("fee", JInt 678); ("raw", JStr "0200000001888be7ec");
         ("outputs", JList [JDict [("amount", JInt 984946); ("n", JInt 1);
                                   ("script", JStr "76a91464a8")]]);
         ("network", JStr "testnet"); ("type", JStr "bitcoin_fund_unsigned")].

(** A decoding in which the text ["eyJmZWUi"] stands for that envelope. *)
Definition docstring_codec : Codec :=
  {| b64_json_dumps := fun _ => "eyJmZWUi";
     b64_json_loads := fun s =>
       if String.eqb s "eyJmZWUi" then Some docstring_envelope else None |}.


Definition docstring_view : TransactionView :=
  {| select_network := fun _ _ => Ok tt;
     decode_transaction := fun _ _ raw => Ok (JDict [("hex", raw)]) |}.

End Sample.

(** ** utils.py: the input and output builders *)

Module Builders.
Import Btcpy.

Definition new_input (u : Utils.utxo) : TxIn :=
  {| txid := Utils.tx_hash u; txout := Utils.tx_output_n u;
     script_sig := ScriptSig_empty; sequence := Sequence_max |}.

Fixpoint _build_inputs_loop (utxos : list Utils.utxo)
    (previous_transaction_indexes : option (list nat)) (index : nat)
    (inputs : list TxIn) (amount : Z) : list TxIn * Z :=
  match utxos with
  | [] => (inputs, amount)
  | u :: rest =>
      if Shuttle.Transaction.selected previous_transaction_indexes index
      then _build_inputs_loop rest previous_transaction_indexes (S index)
             (inputs ++ [new_input u]) (amount + Utils.value u)
      else _build_inputs_loop rest previous_transaction_indexes (S index)
             inputs amount
  end.

(** [_build_inputs(utxos, previous_transaction_indexes=None)] *)
Definition _build_inputs (utxos : list Utils.utxo)
    (previous_transaction_indexes : option (list nat)) : list TxIn * Z :=
  _build_inputs_loop utxos previous_transaction_indexes 0%nat [] 0.

(** An element of the list [_build_outputs] returns: a [TxOut], or a dict
    when [only_dict] is set. *)
Inductive output_item : Type :=
| AsTxOut (o : TxOut)
| AsDict (d : json).

Definition new_output (only_dict : bool) (u : Utils.utxo) : output_item :=
  if negb only_dict
  then AsTxOut {| value := Utils.value u; n := Utils.tx_output_n u;
                  script_pubkey := Script_unhexlify (Utils.script u) |}
  else AsDict (JDict [("value", JInt (Utils.value u));
                      ("tx_output_n", JInt (Utils.tx_output_n u));
                      ("script", JStr (Utils.script u))]).

Fixpoint _build_outputs_loop (utxos : list Utils.utxo)
    (previous_transaction_indexes : option (list nat)) (only_dict : bool)
    (index : nat) (outputs : list output_item) : list output_item :=
  match utxos with
  | [] => outputs
  | u :: rest =>
      if Shuttle.Transaction.selected previous_transaction_indexes index
      then _build_outputs_loop rest previous_transaction_indexes only_dict
             (S index) (outputs ++ [new_output only_dict u])
      else _build_outputs_loop rest previous_transaction_indexes only_dict
             (S index) outputs
  end.

(** [_build_outputs(utxos, previous_transaction_indexes=None,
    only_dict=False)] *)
Definition _build_outputs (utxos : list Utils.utxo)
    (previous_transaction_indexes : option (list nat)) (only_dict : bool)
  : list output_item :=
  _build_outputs_loop utxos previous_transaction_indexes only_dict 0%nat [].

End Builders.

(** ** utils.py: [submit_transaction_raw] *)

Module Submit.

(** What leaves [submit_transaction_raw]: an exception of the language or of
    the collaborators, [APIError(message, code)] built from the service's
    answer, or the [APIError] for an answer without verdict. *)
Inductive submit_error : Type :=
| Uncaught (e : exception)
| APIError (message code : json)
| APIError_unknown.

Inductive submit_result : Type :=
| Submitted (d : json)
| Failed (e : submit_error).

(** The collaborators: [config[network]["smartbit"]], the answer
    [requests.post(...).json()] for a URL and the raw transaction, and
    [str(datetime.datetime.utcnow())]. *)
Class Service : Type := {
  smartbit : json -> result string;
  post_json : string -> json -> result json;
  utcnow : string
}.

(** [needle in s] for two strings. *)
Fixpoint contains (needle s : string) : bool :=
  String.prefix needle s ||
  match s with
  | EmptyString => false
  | String _ rest => contains needle rest
  end.

(** [key in obj]: a key of a dict, an element of a list, a substring of a
    string; anything else is not iterable. *)
Definition key_in (key : string) (obj : json) : result bool :=
  match obj with
  | JDict fields =>
      Ok (match lookup key fields with Some _ => true | None => false end)
  | JList items =>
      Ok (existsb (fun v => match v with
                            | JStr s => String.eqb s key
                            | _ => false
                            end) items)
  | JStr s => Ok (contains key s)
  | JNull | JBool _ | JInt _ => Err TypeError
  end.

(** The truth value of a JSON value. *)
Definition truthy (v : json) : bool :=
  match v with
  | JNull => false
  | JBool b => b
  | JInt z => negb (z =? 0)
  | JStr s => negb (String.eqb s "")
  | JList items => match items with [] => false | _ => true end
  | JDict fields => match fields with [] => false | _ => true end
  end.

Definition lift {A : Type} (r : result A) (k : A -> submit_result)
  : submit_result :=
  match r with
  | Ok a => k a
  | Err e => Failed (Uncaught e)
  end.

Section Submitting.
Context `{Codec} `{TransactionView} `{Service}.

(** [submit_transaction_raw(transaction_raw)] *)
Definition submit_transaction_raw (transaction_raw : string) : submit_result :=
  if negb (Utils.is_transaction_raw transaction_raw)
  then Failed (Uncaught TransactionRawError)
  else
    match b64_json_loads transaction_raw with
    | None => Failed (Uncaught ValueError)
    | Some loaded_transaction_raw =>
        lift (getitem loaded_transaction_raw "network") (fun network =>
        lift (smartbit network) (fun url =>
        lift (getitem loaded_transaction_raw "raw") (fun raw =>
        lift (post_json (url ++ "/pushtx")%string raw) (fun response_json =>
        lift (key_in "success" response_json) (fun present =>
        if negb present then Failed APIError_unknown
        else
          lift (getitem response_json "success") (fun success =>
          if negb (truthy success)
          then
            lift (getitem response_json "error") (fun error =>
            lift (getitem error "message") (fun message =>
            lift (getitem response_json "error") (fun error =>
            lift (getitem error "code") (fun code =>
            Failed (APIError message code)))))
          else
            lift (getitem loaded_transaction_raw "fee") (fun fee =>
            lift (getitem loaded_transaction_raw "type") (fun type =>
            lift (getitem response_json "txid") (fun txid =>
            lift (getitem loaded_transaction_raw "network") (fun network =>
            Submitted (JDict [("fee", fee); ("type", type);
                              ("transaction_id", txid);
                              ("network", network);
                              ("date", JStr utcnow)])))))))))))
    end.

End Submitting.

End Submit.

(** ** The outputs a selection picks *)

(** The items of [utxos], counted from [index], that
    [previous_transaction_indexes] selects, in their order. *)
Fixpoint picked {U : Type} (previous_transaction_indexes : option (list nat))
    (index : nat) (utxos : list U) : list U :=
  match utxos with
  | [] => []
  | u :: rest =>
      if Shuttle.Transaction.selected previous_transaction_indexes index
      then u :: picked previous_transaction_indexes (S index) rest
      else picked previous_transaction_indexes (S index) rest
  end.

(** ** Sample collaborators *)

Module Fixture.

Definition serializer : Serializer :=
  {| hexlify := fun tx =>
       if (List.length (Btcpy.ins tx) =? 1)%nat then "0200000001" else "02000000";
     transaction_id := fun _ => "abc70fd3";
     to_json := fun tx => JDict [("version", JInt (Btcpy.version tx))];
     address_str := fun a =>
       match a with
       | Btcpy.Address_from_string text => text
       | Btcpy.P2sh_address script_hex _ => script_hex
       | Btcpy.P2pkh_address script_hex _ => script_hex
       end |}.

(** A service that accepts what is pushed to it. *)
Definition accepting : Submit.Service :=
  {| Submit.smartbit := fun _ => Ok "https://testnet-api.smartbit.com.au/v1/blockchain";
     Submit.post_json := fun _ _ =>
       Ok (JDict [("success", JBool true); ("txid", JStr "abc70fd3")]);
     Submit.utcnow := "2020-06-01 12:00:00.000000" |}.

(** A service that refuses it. *)
Definition refusing : Submit.Service :=
  {| Submit.smartbit := fun _ => Ok "https://testnet-api.smartbit.com.au/v1/blockchain";
     Submit.post_json := fun _ _ =>
       Ok (JDict [("success", JBool false);
                  ("error", JDict [("code", JStr "REQ_ERROR");
                                   ("message", JStr "TX decode failed")])]);
     Submit.utcnow := "2020-06-01 12:00:00.000000" |}.

(** An envelope with a recognized type and no network. *)
Definition no_network_envelope : json :=
  JDict [("fee", JInt 678); ("raw", JStr "0200000001888be7ec");
         ("type", JStr "bitcoin_fund_unsigned")].

Definition no_network_codec : Codec :=
  {| b64_json_dumps := fun _ => "eyJmZWUi";
     b64_json_loads := fun _ => Some no_network_envelope |}.

End Fixture.

(** ** Prefix sums, the vocabulary of the selection properties *)

Definition total {U : Type} (value_of : U -> Z) (utxos : list U) : Z :=
  fold_right (fun u acc => value_of u + acc) 0 utxos.

(** The amount accumulated after the first [k] items. *)
Definition prefix_amount {U : Type} (value_of : U -> Z) (utxos : list U)
    (k : nat) : Z :=
  total value_of (firstn k utxos).

(** The loop's test after the [k]-th item: the accumulated amount strictly
    exceeds the target plus the fee for [k] inputs and two outputs. *)
Definition exceeds {U : Type} (value_of : U -> Z) (utxos : list U)
    (amount : Z) (k : nat) : Prop :=
  prefix_amount value_of utxos k > amount + Utils.fee_calculator (Z.of_nat k) 2.

(** ** Properties of the fee model *)

Lemma fee_calculator_linear (i o : Z) :
  Utils.fee_calculator i o = 576 + (i - 1) * 444 + (o - 1) * 102.
Proof. unfold Utils.fee_calculator. lia. Qed.

(** ** Properties of the selection loop *)

Section Loop.
Context {U : Type} (value_of : U -> Z).

Lemma prefix_amount_cons (u : U) (l : list U) (k : nat) :
  prefix_amount value_of (u :: l) (S k) = value_of u + prefix_amount value_of l k.
Proof. reflexivity. Qed.

(** The loop entered at [index] with [temp_amount] accumulated: when no later
    test fires, every remaining index is appended. *)
Lemma indexes_loop_exhausted (utxos : list U) (amount : Z) :
  forall (index : nat) (temp_amount : Z) (acc : list nat),
    (forall k, (1 <= k <= List.length utxos)%nat ->
       temp_amount + prefix_amount value_of utxos k
       <= amount + Utils.fee_calculator (Z.of_nat (index + k)) 2) ->
    Utils.indexes_loop value_of utxos amount index temp_amount acc
    = acc ++ seq index (List.length utxos).
Proof.
  induction utxos as [|u rest IH]; intros index t acc H; simpl.
  - now rewrite app_nil_r.
  - assert (H1 := H 1%nat ltac:(simpl; lia)).
    rewrite prefix_amount_cons in H1. unfold prefix_amount in H1.
    simpl in H1. replace (Z.of_nat (index + 1)) with (Z.of_nat index + 1) in H1 by lia.
    destruct (Z.gtb_spec (t + value_of u)
                (amount + Utils.fee_calculator (Z.of_nat index + 1) 2)) as [Hgt|Hle];
      [lia|].
    rewrite IH.
    + rewrite <- app_assoc. reflexivity.
    + intros k Hk. specialize (H (S k) ltac:(simpl; lia)).
      rewrite prefix_amount_cons in H.
      replace (S index + k)%nat with (index + S k)%nat by lia. lia.
Qed.

(** When the test first fires after [k] items, exactly the [k] indexes up to
    and including that item are appended. *)
Lemma indexes_loop_stops (utxos : list U) (amount : Z) :
  forall (k index : nat) (temp_amount : Z) (acc : list nat),
    (1 <= k <= List.length utxos)%nat ->
    temp_amount + prefix_amount value_of utxos k
    > amount + Utils.fee_calculator (Z.of_nat (index + k)) 2 ->
    (forall j, (1 <= j < k)%nat ->
       temp_amount + prefix_amount value_of utxos j
       <= amount + Utils.fee_calculator (Z.of_nat (index + j)) 2) ->
    Utils.indexes_loop value_of utxos amount index temp_amount acc
    = acc ++ seq index k.
Proof.
  induction utxos as [|u rest IH]; intros k index t acc Hk Hgt Hmin; simpl in *.
  - lia.
  - destruct k as [|k]; [lia|].
    destruct (Z.gtb_spec (t + value_of u)
                (amount + Utils.fee_calculator (Z.of_nat index + 1) 2)) as [Hfire|Hno].
    + destruct k as [|k]; [reflexivity|].
      specialize (Hmin 1%nat ltac:(lia)).
      rewrite prefix_amount_cons in Hmin. unfold prefix_amount in Hmin.
      simpl in Hmin.
      replace (Z.of_nat (index + 1)) with (Z.of_nat index + 1) in Hmin by lia.
      lia.
    + destruct k as [|k].
      * rewrite prefix_amount_cons in Hgt. unfold prefix_amount in Hgt.
        simpl in Hgt.
        replace (Z.of_nat (index + 1)) with (Z.of_nat index + 1) in Hgt by lia.
        lia.
      * rewrite (IH (S k) (S index) (t + value_of u) (acc ++ [index])).
        -- rewrite <- app_assoc. reflexivity.
        -- lia.
        -- rewrite prefix_amount_cons in Hgt.
           replace (S index + S k)%nat with (index + S (S k))%nat by lia. lia.
        -- intros j Hj. specialize (Hmin (S j) ltac:(lia)).
           rewrite prefix_amount_cons in Hmin.
           replace (S index + j)%nat with (index + S j)%nat by lia. lia.
Qed.

(** Whatever the amounts, the loop appends a run of consecutive indexes, and
    at least one when the list is not empty. *)
Lemma indexes_loop_prefix (utxos : list U) (amount : Z) :
  forall (index : nat) (temp_amount : Z) (acc : list nat),
    exists n, (n <= List.length utxos)%nat /\ (utxos <> [] -> (1 <= n)%nat) /\
      Utils.indexes_loop value_of utxos amount index temp_amount acc
      = acc ++ seq index n.
Proof.
  induction utxos as [|u rest IH]; intros index t acc; simpl.
  - exists 0%nat. simpl. rewrite app_nil_r. repeat split; [lia|congruence].
  - destruct (t + value_of u >? amount + Utils.fee_calculator (Z.of_nat index + 1) 2).
    + exists 1%nat. repeat split; lia.
    + destruct (IH (S index) (t + value_of u) (acc ++ [index])) as (n & Hn & _ & E).
      exists (S n). rewrite E, <- app_assoc. repeat split; lia.
Qed.

End Loop.


(** From the start of the list, for either selector. *)
Lemma indexes_from_start_prefix {U : Type} (value_of : U -> Z)
    (utxos : list U) (amount : Z) :
  exists n, (n <= List.length utxos)%nat /\ (utxos <> [] -> (1 <= n)%nat) /\
    Utils.indexes_loop value_of utxos amount 0%nat 0 [] = seq 0 n.
Proof.
  destruct (indexes_loop_prefix value_of utxos amount 0%nat 0 [])
    as (n & Hn & Hpos & E).
  exists n. auto.
Qed.

Lemma indexes_from_start_exhausted {U : Type} (value_of : U -> Z)
    (utxos : list U) (amount : Z) :
  (forall k, (1 <= k <= List.length utxos)%nat -> ~ exceeds value_of utxos amount k) ->
  Utils.indexes_loop value_of utxos amount 0%nat 0 []
  = seq 0 (List.length utxos).
Proof.
  intros H. rewrite indexes_loop_exhausted; [reflexivity|].
  intros k Hk. specialize (H k Hk). unfold exceeds in H. simpl. lia.
Qed.

(** The selection is the shortest prefix that passes the loop's strict test. *)
Lemma indexes_from_start_stops {U : Type} (value_of : U -> Z)
    (utxos : list U) (amount : Z) (k : nat) :
  (1 <= k <= List.length utxos)%nat ->
  exceeds value_of utxos amount k ->
  (forall j, (1 <= j < k)%nat -> ~ exceeds value_of utxos amount j) ->
  Utils.indexes_loop value_of utxos amount 0%nat 0 [] = seq 0 k.
Proof.
  intros Hk Hgt Hmin.
  rewrite (indexes_loop_stops value_of utxos amount k); [reflexivity|assumption| |].
  - unfold exceeds in Hgt. simpl. lia.
  - intros j Hj. specialize (Hmin j Hj). unfold exceeds in Hmin. simpl. lia.
Qed.

(** ** Inputs of a selected prefix *)

Lemma selected_prefix (n index : nat) :
  Shuttle.Transaction.selected (Some (seq 0 n)) index = (index <? n)%nat.
Proof.
  unfold Shuttle.Transaction.selected.
  destruct (Nat.ltb_spec index n) as [Hlt|Hge].
  - apply existsb_exists. exists index. split.
    + apply in_seq. lia.
    + apply Nat.eqb_refl.
  - destruct (existsb (Nat.eqb index) (seq 0 n)) eqn:E; [|reflexivity].
    apply existsb_exists in E. destruct E as (x & Hin & Heq).
    apply in_seq in Hin. apply Nat.eqb_eq in Heq. lia.
Qed.

Lemma inputs_loop_prefix (n : nat) (utxos : list Shuttle.utxo) :
  forall (index : nat) (inputs : list Btcpy.TxIn) (amount : Z),
    Shuttle.Transaction.inputs_loop utxos (Some (seq 0 n)) index inputs amount
    = (inputs ++ map Shuttle.Transaction.new_input (firstn (n - index) utxos),
       amount + total Shuttle.amount (firstn (n - index) utxos)).
Proof.
  induction utxos as [|u rest IH]; intros index inputs amount.
  - rewrite firstn_nil. simpl. now rewrite app_nil_r, Z.add_0_r.
  - cbn [Shuttle.Transaction.inputs_loop]. rewrite selected_prefix.
    destruct (Nat.ltb_spec index n) as [Hlt|Hge].
    + rewrite IH. replace (n - index)%nat with (S (n - S index)) by lia.
      cbn [firstn map total fold_right]. rewrite <- app_assoc.
      f_equal. unfold total. lia.
    + rewrite IH. replace (n - S index)%nat with 0%nat by lia.
      replace (n - index)%nat with 0%nat by lia. reflexivity.
Qed.

Lemma inputs_prefix (n : nat) (utxos : list Shuttle.utxo) :
  Shuttle.Transaction.inputs utxos (Some (seq 0 n))
  = (map Shuttle.Transaction.new_input (firstn n utxos),
     prefix_amount Shuttle.amount utxos n).
Proof.
  unfold Shuttle.Transaction.inputs. rewrite inputs_loop_prefix.
  rewrite Nat.sub_0_r. reflexivity.
Qed.

(** ** The Fund builder, step by step *)

Import Shuttle.

Section FundBuilding.
Context `{Btcpy.Library}.

(** What the library accepted when the funding transaction was constructed,
    and the transaction it made. *)
Lemma funding_transaction_inv (version : Z) (inputs : list Btcpy.TxIn)
    (wallet : Wallet) (htlc : HTLC) (amount accumulated fee locktime : Z)
    (tx : Btcpy.MutableTransaction) :
  FundTransaction.funding_transaction version inputs wallet htlc amount
    accumulated fee locktime = Ok tx ->
  Btcpy.is_p2sh (htlc_hash htlc) = true /\
  Btcpy.is_p2pkh (p2pkh wallet) = true /\
  0 <= locktime < 2 ^ 32 /\
  Btcpy.serializes version inputs = true /\
  0 <= amount < 2 ^ 64 /\
  0 <= accumulated - (fee + amount) < 2 ^ 64 /\
  tx = {| Btcpy.version := version;
          Btcpy.ins := inputs;
          Btcpy.outs := [
            {| Btcpy.value := amount; Btcpy.n := 0;
               Btcpy.script_pubkey := Btcpy.P2shScript_unhexlify (htlc_hash htlc) |};
            {| Btcpy.value := accumulated - (fee + amount); Btcpy.n := 1;
               Btcpy.script_pubkey := Btcpy.P2pkhScript_unhexlify (p2pkh wallet) |} ];
          Btcpy.locktime := locktime |}.
Proof.
  unfold FundTransaction.funding_transaction, Btcpy.unhexlify_P2sh,
    Btcpy.unhexlify_P2pkh, Btcpy.Locktime, Btcpy.new_transaction.
  destruct (Btcpy.is_p2sh (htlc_hash htlc)); [|discriminate].
  destruct (Btcpy.is_p2pkh (p2pkh wallet)); [|discriminate].
  cbn [bind].
  destruct (Z.leb_spec 0 locktime); [|discriminate].
  destruct (Z.ltb_spec locktime (2 ^ 32)); [|discriminate].
  cbn [andb bind].
  destruct (Btcpy.serializes version inputs); [|discriminate].
  cbn [negb Btcpy.check_values Btcpy.value].
  destruct (Z.leb_spec 0 amount); [|discriminate].
  destruct (Z.ltb_spec amount (2 ^ 64)); [|discriminate].
  cbn [andb].
  destruct (Z.leb_spec 0 (accumulated - (fee + amount))); [|discriminate].
  destruct (Z.ltb_spec (accumulated - (fee + amount)) (2 ^ 64)); [|discriminate].
  cbn [andb]. intros E. injection E as <-.
  repeat split; try assumption; reflexivity.
Qed.

Lemma funding_transaction_ok (version : Z) (inputs : list Btcpy.TxIn)
    (wallet : Wallet) (htlc : HTLC) (amount accumulated fee locktime : Z) :
  Btcpy.is_p2sh (htlc_hash htlc) = true ->
  Btcpy.is_p2pkh (p2pkh wallet) = true ->
  0 <= locktime < 2 ^ 32 ->
  Btcpy.serializes version inputs = true ->
  0 <= amount < 2 ^ 64 ->
  0 <= accumulated - (fee + amount) < 2 ^ 64 ->
  FundTransaction.funding_transaction version inputs wallet htlc amount
    accumulated fee locktime
  = Ok {| Btcpy.version := version;
          Btcpy.ins := inputs;
          Btcpy.outs := [
            {| Btcpy.value := amount; Btcpy.n := 0;
               Btcpy.script_pubkey := Btcpy.P2shScript_unhexlify (htlc_hash htlc) |};
            {| Btcpy.value := accumulated - (fee + amount); Btcpy.n := 1;
               Btcpy.script_pubkey := Btcpy.P2pkhScript_unhexlify (p2pkh wallet) |} ];
          Btcpy.locktime := locktime |}.
Proof.
  intros Hs Hp Hl Hser Ha Hc.
  unfold FundTransaction.funding_transaction, Btcpy.unhexlify_P2sh,
    Btcpy.unhexlify_P2pkh, Btcpy.Locktime, Btcpy.new_transaction.
  rewrite Hs, Hp. cbn [bind].
  replace (0 <=? locktime) with true by (symmetry; apply Z.leb_le; lia).
  replace (locktime <? 2 ^ 32) with true by (symmetry; apply Z.ltb_lt; lia).
  cbn [andb bind]. rewrite Hser. cbn [negb Btcpy.check_values Btcpy.value].
  replace (0 <=? amount) with true by (symmetry; apply Z.leb_le; lia).
  replace (amount <? 2 ^ 64) with true by (symmetry; apply Z.ltb_lt; lia).
  replace (0 <=? accumulated - (fee + amount)) with true
    by (symmetry; apply Z.leb_le; lia).
  replace (accumulated - (fee + amount) <? 2 ^ 64) with true
    by (symmetry; apply Z.ltb_lt; lia).
  reflexivity.
Qed.

(** The library never raises the balance error. *)
Lemma funding_transaction_error (version : Z) (inputs : list Btcpy.TxIn)
    (wallet : Wallet) (htlc : HTLC) (amount accumulated fee locktime : Z)
    (e : exception) :
  FundTransaction.funding_transaction version inputs wallet htlc amount
    accumulated fee locktime = Err e ->
  e <> BalanceError.
Proof.
  unfold FundTransaction.funding_transaction, Btcpy.unhexlify_P2sh,
    Btcpy.unhexlify_P2pkh, Btcpy.Locktime, Btcpy.new_transaction.
  destruct (Btcpy.is_p2sh (htlc_hash htlc)); cbn [bind];
    [|intros E; injection E as <-; discriminate].
  destruct (Btcpy.is_p2pkh (p2pkh wallet)); cbn [bind];
    [|intros E; injection E as <-; discriminate].
  destruct ((0 <=? locktime) && (locktime <? 2 ^ 32)); cbn [bind];
    [|intros E; injection E as <-; discriminate].
  destruct (Btcpy.serializes version inputs); cbn [negb];
    [|intros E; injection E as <-; discriminate].
  cbn [Btcpy.check_values Btcpy.value].
  destruct ((0 <=? amount) && (amount <? 2 ^ 64));
    [|intros E; injection E as <-; discriminate].
  destruct ((0 <=? accumulated - (fee + amount))
            && (accumulated - (fee + amount) <? 2 ^ 64));
    [discriminate|intros E; injection E as <-; discriminate].
Qed.

(** What [build_transaction] does once the selection is known to be the first
    [n] outputs of the wallet. *)
Lemma fund_build_transaction_prefix (self : FundTransaction.t) (wallet : Wallet)
    (htlc : HTLC) (amount locktime : Z) (n : nat) :
  (n <= List.length (unspent wallet))%nat ->
  Utils.indexes_loop Shuttle.amount (unspent wallet) amount 0%nat 0 [] = seq 0 n ->
  let accumulated := prefix_amount Shuttle.amount (unspent wallet) n in
  let fee := Utils.fee_calculator (Z.of_nat n) 2 in
  let built := FundTransaction.build_transaction self wallet htlc amount locktime in
  FundTransaction.previous_transaction_indexes (object built) = Some (seq 0 n) /\
  FundTransaction.unspent (object built) = Some (unspent wallet) /\
  Transaction.fee (FundTransaction.base (object built)) = fee /\
  (accumulated < amount + fee ->
     raised built = Some BalanceError /\
     Transaction.transaction (FundTransaction.base (object built))
     = Transaction.transaction (FundTransaction.base self)) /\
  (accumulated >= amount + fee ->
     match FundTransaction.funding_transaction
             (Transaction.version (FundTransaction.base self))
             (map Transaction.new_input (firstn n (unspent wallet)))
             wallet htlc amount accumulated fee locktime with
     | Ok tx =>
         raised built = None /\
         Transaction.transaction (FundTransaction.base (object built)) = Some tx
     | Err e =>
         raised built = Some e /\
         Transaction.transaction (FundTransaction.base (object built))
         = Transaction.transaction (FundTransaction.base self)
     end).
Proof.
  intros Hn Hsel accumulated fee built.
  unfold built, FundTransaction.build_transaction,
    FundTransaction.get_previous_transaction_indexes.
  cbn [FundTransaction.unspent]. rewrite Hsel, inputs_prefix.
  rewrite length_map, firstn_length_le by exact Hn.
  fold accumulated. fold fee. cbn [FundTransaction.base FundTransaction.set_base
    FundTransaction.set_previous_transaction_indexes Transaction.version
    Transaction.set_fee].
  destruct (Z.ltb_spec accumulated (amount + fee)) as [Hlt|Hge].
  - cbn. repeat split; try reflexivity; intros; lia.
  - destruct (FundTransaction.funding_transaction _ _ wallet htlc amount
                accumulated fee locktime) as [tx|e] eqn:Etx; cbn;
      repeat split; try reflexivity; intros; lia.
Qed.

End FundBuilding.

(** ** The fee estimator *)

(** C2 (as the code has it): for every input count of at least 1 and output
    count of at least 0 the estimator returns exactly
    576 + (input_count - 1) * 444 + (output_count - 1) * 102: the first output
    is part of the base cost, only the further ones add 102 each. *)
Theorem fee_calculator_formula (input_count output_count : Z) :
  1 <= input_count -> 0 <= output_count ->
  Utils.fee_calculator input_count output_count
  = 576 + (input_count - 1) * 444 + (output_count - 1) * 102.
Proof. intros _ _. apply fee_calculator_linear. Qed.

Lemma fee_calculator_formula_witness :
  1 <= 3 /\ 0 <= 2 /\
  Utils.fee_calculator 3 2 = 576 + (3 - 1) * 444 + (2 - 1) * 102.
Proof.
  split; [lia|]. split; [lia|].
  apply (fee_calculator_formula 3 2); lia.
Defined.

(** C2 as stated fails: for two inputs and nine outputs the code answers 1836,
    the stated formula 1938. *)
Lemma fee_calculator_not_per_output :
  1 <= 2 /\ 0 <= 9 /\
  Utils.fee_calculator 2 9 = 1836 /\
  576 + (2 - 1) * 444 + 9 * 102 = 1938 /\
  Utils.fee_calculator 2 9 <> 576 + (2 - 1) * 444 + 9 * 102.
Proof. repeat split; try lia; try reflexivity. vm_compute. discriminate. Qed.

(** C9: the fixed regression values, estimate(2, 9) = 1836 and
    estimate(1, 1) = 576. *)
Theorem fee_calculator_regression :
  Utils.fee_calculator 2 9 = 1836 /\ Utils.fee_calculator 1 1 = 576.
Proof. split; reflexivity. Qed.

(** ** The UTXO selector *)

(** C3 at the boundary: the first output alone reaches target plus fee exactly
    (1678 = 1000 + 678), yet both selectors go on to the second output, and
    the Fund builder then refuses the funding although it accepts an
    accumulated amount equal to target plus fee. *)
Theorem selector_passes_exact_threshold {L : Btcpy.Library} :
  prefix_amount Utils.value Sample.swap_utxos 1
    = 1000 + Utils.fee_calculator 1 2 /\
  Utils._get_previous_transaction_indexes Sample.swap_utxos 1000 = [0; 1]%nat /\
  prefix_amount Shuttle.amount Sample.wallet_utxos 1
    = 1000 + Utils.fee_calculator 1 2 /\
  FundTransaction.previous_transaction_indexes
    (object (FundTransaction.build_transaction Sample.fund Sample.sender_wallet
               Sample.contract 1000 0))
    = Some [0; 1]%nat /\
  raised (FundTransaction.build_transaction Sample.fund Sample.sender_wallet
            Sample.contract 1000 0)
    = Some BalanceError.
Proof. repeat split; reflexivity. Qed.

(** C10: both selectors return the indexes 0, 1, ... of a prefix of the list,
    without a gap; when no prefix reaches target plus fee they return every
    index, and it is the Fund builder that raises. *)
Theorem selector_returns_prefix {L : Btcpy.Library} (utxos : list Utils.utxo)
    (self : FundTransaction.t) (wallet : Wallet) (htlc : HTLC)
    (amount locktime : Z) :
  let built := FundTransaction.build_transaction self wallet htlc amount locktime in
  (exists n, (n <= List.length utxos)%nat /\
     Utils._get_previous_transaction_indexes utxos amount = seq 0 n) /\
  ((forall k, (1 <= k <= List.length utxos)%nat ->
      prefix_amount Utils.value utxos k
      < amount + Utils.fee_calculator (Z.of_nat k) 2) ->
   Utils._get_previous_transaction_indexes utxos amount
   = seq 0 (List.length utxos)) /\
  (exists n, (n <= List.length (unspent wallet))%nat /\
     FundTransaction.get_previous_transaction_indexes (object built) (Some amount)
     = Ok (seq 0 n) /\
     FundTransaction.previous_transaction_indexes (object built)
     = Some (seq 0 n)) /\
  ((forall k, (1 <= k <= List.length (unspent wallet))%nat ->
      prefix_amount Shuttle.amount (unspent wallet) k
      < amount + Utils.fee_calculator (Z.of_nat k) 2) ->
   FundTransaction.previous_transaction_indexes (object built)
   = Some (seq 0 (List.length (unspent wallet))) /\
   (unspent wallet <> [] -> raised built = Some BalanceError)).
Proof.
  intros built. repeat split.
  - destruct (indexes_from_start_prefix Utils.value utxos amount)
      as (n & Hn & _ & E).
    exists n. split; assumption.
  - intros Hnever. apply indexes_from_start_exhausted.
    intros k Hk. specialize (Hnever k Hk). unfold exceeds. lia.
  - destruct (indexes_from_start_prefix Shuttle.amount (unspent wallet) amount)
      as (n & Hn & _ & E).
    destruct (fund_build_transaction_prefix self wallet htlc amount locktime n Hn E)
      as (Hidx & Hunspent & _).
    exists n. fold built in Hidx, Hunspent. repeat split; try assumption.
    unfold FundTransaction.get_previous_transaction_indexes.
    rewrite Hunspent, E. reflexivity.
  - assert (E : Utils.indexes_loop Shuttle.amount (unspent wallet) amount 0%nat 0 []
                = seq 0 (List.length (unspent wallet))).
    { apply indexes_from_start_exhausted.
      intros k Hk. specialize (H k Hk). unfold exceeds. lia. }
    apply (fund_build_transaction_prefix self wallet htlc amount locktime _
             (Nat.le_refl _) E).
  - intros Hne.
    assert (E : Utils.indexes_loop Shuttle.amount (unspent wallet) amount 0%nat 0 []
                = seq 0 (List.length (unspent wallet))).
    { apply indexes_from_start_exhausted.
      intros k Hk. specialize (H k Hk). unfold exceeds. lia. }
    destruct (fund_build_transaction_prefix self wallet htlc amount locktime _
                (Nat.le_refl _) E) as (_ & _ & _ & Hlow & _).
    apply Hlow. apply H. split; [|lia].
    destruct (unspent wallet); [congruence|simpl; lia].
Qed.

Lemma selector_returns_prefix_witness :
  Utils._get_previous_transaction_indexes Sample.poor_swap_utxos 1000
  = [0; 1]%nat /\
  FundTransaction.previous_transaction_indexes
    (object (@FundTransaction.build_transaction Sample.library Sample.fund
               Sample.poor_wallet Sample.contract 1000 0))
  = Some [0; 1]%nat /\
  raised (@FundTransaction.build_transaction Sample.library Sample.fund
            Sample.poor_wallet Sample.contract 1000 0)
  = Some BalanceError.
Proof.
  pose proof (@selector_returns_prefix Sample.library Sample.poor_swap_utxos
                Sample.fund Sample.poor_wallet Sample.contract 1000 0) as H.
  cbv zeta in H. destruct H as (_ & Hall & _ & Hfund).
  assert (Hswap : forall k, (1 <= k <= 2)%nat ->
            prefix_amount Utils.value Sample.poor_swap_utxos k
            < 1000 + Utils.fee_calculator (Z.of_nat k) 2).
  { intros k Hk. destruct k as [|[|[|k]]]; try lia; vm_compute; reflexivity. }
  assert (Hwallet : forall k, (1 <= k <= 2)%nat ->
            prefix_amount Shuttle.amount (unspent Sample.poor_wallet) k
            < 1000 + Utils.fee_calculator (Z.of_nat k) 2).
  { intros k Hk. destruct k as [|[|[|k]]]; try lia; vm_compute; reflexivity. }
  split; [exact (Hall Hswap)|].
  destruct (Hfund Hwallet) as (Hidx & Hraise).
  split; [exact Hidx|]. apply Hraise. discriminate.
Defined.

(** ** The Fund builder *)

(** C4 (as the code has it): with [accumulated] the amount of the selected
    outputs (a prefix of the wallet's list) and [fee] the estimate for that
    many inputs and two outputs, [build_transaction] raises the balance error
    exactly when [accumulated < amount + fee].  Otherwise it returns provided
    the library accepts what it is given: the contract hash and the wallet's
    script parse, the locktime is within 32 bits, version and inputs
    serialise, and the amount and the change are within 64 bits; and whenever
    it returns, the transaction has exactly two outputs: the contract output
    of [amount] at index 0 and the change output of
    [accumulated - fee - amount] at index 1. *)
Theorem fund_build_transaction_balance {L : Btcpy.Library}
    (self : FundTransaction.t) (wallet : Wallet) (htlc : HTLC)
    (amount locktime : Z) :
  let built := FundTransaction.build_transaction self wallet htlc amount locktime in
  exists n : nat,
    let accumulated := prefix_amount Shuttle.amount (unspent wallet) n in
    let fee := Utils.fee_calculator (Z.of_nat n) 2 in
    FundTransaction.previous_transaction_indexes (object built) = Some (seq 0 n) /\
    Transaction.inputs (unspent wallet) (Some (seq 0 n))
    = (map Transaction.new_input (firstn n (unspent wallet)), accumulated) /\
    List.length (firstn n (unspent wallet)) = n /\
    Transaction.fee (FundTransaction.base (object built)) = fee /\
    (raised built = Some BalanceError <-> accumulated < amount + fee) /\
    (Btcpy.is_p2sh (htlc_hash htlc) = true ->
     Btcpy.is_p2pkh (p2pkh wallet) = true ->
     0 <= locktime < 2 ^ 32 ->
     Btcpy.serializes (Transaction.version (FundTransaction.base self))
       (map Transaction.new_input (firstn n (unspent wallet))) = true ->
     0 <= amount < 2 ^ 64 ->
     accumulated - fee - amount < 2 ^ 64 ->
     (raised built = None <-> accumulated >= amount + fee)) /\
    (raised built = None ->
     accumulated >= amount + fee /\
     exists tx,
       Transaction.transaction (FundTransaction.base (object built)) = Some tx /\
       Btcpy.ins tx = map Transaction.new_input (firstn n (unspent wallet)) /\
       Btcpy.outs tx = [
         {| Btcpy.value := amount; Btcpy.n := 0;
            Btcpy.script_pubkey := Btcpy.P2shScript_unhexlify (htlc_hash htlc) |};
         {| Btcpy.value := accumulated - fee - amount; Btcpy.n := 1;
            Btcpy.script_pubkey := Btcpy.P2pkhScript_unhexlify (p2pkh wallet) |} ]).
Proof.
  intros built.
  destruct (indexes_from_start_prefix Shuttle.amount (unspent wallet) amount)
    as (n & Hn & _ & E).
  destruct (fund_build_transaction_prefix self wallet htlc amount locktime n Hn E)
    as (Hidx & _ & Hfee & Hlow & Hhigh).
  fold built in Hidx, Hfee, Hlow, Hhigh.
  exists n. cbv zeta.
  split; [exact Hidx|]. split; [apply inputs_prefix|].
  split; [apply firstn_length_le; exact Hn|]. split; [exact Hfee|].
  set (accumulated := prefix_amount Shuttle.amount (unspent wallet) n) in *.
  set (fee := Utils.fee_calculator (Z.of_nat n) 2) in *.
  destruct (Z.lt_ge_cases accumulated (amount + fee)) as [Hlt|Hge].
  - destruct (Hlow Hlt) as (Hr & _). rewrite Hr.
    repeat split; intros; try lia; try discriminate; try reflexivity.
  - specialize (Hhigh (proj2 (Z.ge_le_iff _ _) Hge)).
    destruct (FundTransaction.funding_transaction _ _ wallet htlc amount
                accumulated fee locktime) as [tx|e] eqn:Etx.
    + destruct Hhigh as (Hr & Htx). rewrite Hr.
      apply funding_transaction_inv in Etx.
      destruct Etx as (_ & _ & _ & _ & _ & _ & ->).
      repeat split; intros; try lia; try discriminate.
      eexists. split; [exact Htx|]. split; [reflexivity|]. cbn.
      replace (accumulated - (fee + amount)) with (accumulated - fee - amount)
        by lia. reflexivity.
    + destruct Hhigh as (Hr & _). rewrite Hr.
      pose proof (funding_transaction_error _ _ _ _ _ _ _ _ _ Etx) as Hne.
      split; [split; [intros Eb; injection Eb as ->; congruence|lia]|].
      split; [|intros Eb; discriminate Eb].
      intros Hs Hp Hl Hser Ha Hc.
      rewrite funding_transaction_ok in Etx; try assumption; try lia.
      discriminate Etx.
Qed.

Lemma fund_build_transaction_balance_witness :
  @Btcpy.is_p2sh Sample.library (htlc_hash Sample.contract) = true /\
  @Btcpy.is_p2pkh Sample.library (p2pkh Sample.rich_wallet) = true /\
  0 <= 0 < 2 ^ 32 /\ 0 <= 1000 < 2 ^ 64 /\
  exists n : nat,
    FundTransaction.previous_transaction_indexes
      (object (@FundTransaction.build_transaction Sample.library Sample.fund
                 Sample.rich_wallet Sample.contract 1000 0)) = Some (seq 0 n) /\
    raised (@FundTransaction.build_transaction Sample.library Sample.fund
              Sample.rich_wallet Sample.contract 1000 0) = None /\
    prefix_amount Shuttle.amount (unspent Sample.rich_wallet) n
    >= 1000 + Utils.fee_calculator (Z.of_nat n) 2.
Proof.
  split; [reflexivity|]. split; [reflexivity|]. split; [lia|]. split; [lia|].
  destruct (@fund_build_transaction_balance Sample.library Sample.fund
              Sample.rich_wallet Sample.contract 1000 0)
    as (n & Hidx & _ & _ & _ & _ & _ & Hret).
  exists n. split; [exact Hidx|]. split; [reflexivity|].
  apply Hret. reflexivity.
Defined.

(** C4 as stated fails: the wallet's single output of 5000 covers the amount
    -1 and the fee 678, so the balance check passes, and yet the builder does
    not succeed: the library refuses the negative output value.  With the
    amount 1000 it refuses the locktime 2^32 in the same way. *)
Lemma fund_build_transaction_not_total :
  prefix_amount Shuttle.amount (unspent Sample.rich_wallet) 1
  >= -1 + Utils.fee_calculator 1 2 /\
  raised (@FundTransaction.build_transaction Sample.library Sample.fund
            Sample.rich_wallet Sample.contract (-1) 0)
  = Some OverflowError /\
  prefix_amount Shuttle.amount (unspent Sample.rich_wallet) 1
  >= 1000 + Utils.fee_calculator 1 2 /\
  raised (@FundTransaction.build_transaction Sample.library Sample.fund
            Sample.rich_wallet Sample.contract 1000 (2 ^ 32))
  = Some LocktimeValueOutOfRange.
Proof.
  split; [vm_compute; discriminate|]. split; [reflexivity|].
  split; [vm_compute; discriminate|]. reflexivity.
Qed.

(** The sample Claim and Refund objects are what the constructors make of the
    funding detail. *)
Lemma sample_claim_init :
  @ClaimTransaction.init Sample.library "f00d" Sample.recipient_wallet
    "testnet" 2 Sample.funding_detail = Ok Sample.claim.
Proof. reflexivity. Qed.

Lemma sample_refund_init :
  @RefundTransaction.init Sample.library "f00d" Sample.sender_wallet
    "testnet" 2 Sample.funding_detail = Ok Sample.refund.
Proof. reflexivity. Qed.

(** ** The order of build and sign *)

Section StateOrder.
Context `{Serializer} `{Codec}.

(** Before [build_transaction] the views and envelopes of all variants, and
    the Fund variant's [sign], raise [ValueError]. *)
Lemma views_before_build_transaction (b : Transaction.t) :
  Transaction.transaction b = None ->
  Transaction.hash b = Err ValueError /\
  Transaction.json b = Err ValueError /\
  Transaction.raw b = Err ValueError.
Proof.
  intros E. unfold Transaction.hash, Transaction.json, Transaction.raw.
  rewrite E. repeat split.
Qed.

Lemma unsigned_raw_before_build_transaction (f : FundTransaction.t)
    (c : ClaimTransaction.t) (r : RefundTransaction.t) :
  Transaction.transaction (FundTransaction.base f) = None ->
  Transaction.transaction (ClaimTransaction.base c) = None ->
  Transaction.transaction (RefundTransaction.base r) = None ->
  FundTransaction.unsigned_raw f = Err ValueError /\
  ClaimTransaction.unsigned_raw c = Err ValueError /\
  RefundTransaction.unsigned_raw r = Err ValueError.
Proof.
  intros Ef Ec Er.
  unfold FundTransaction.unsigned_raw, FundTransaction.unsigned_envelope,
    ClaimTransaction.unsigned_raw, ClaimTransaction.unsigned_envelope,
    RefundTransaction.unsigned_raw, RefundTransaction.unsigned_envelope.
  rewrite Ef, Ec, Er. repeat split.
Qed.

End StateOrder.

Lemma fund_sign_before_build_transaction (f : FundTransaction.t)
    (solver : FundSolver) :
  Transaction.transaction (FundTransaction.base f) = None ->
  FundTransaction.sign f solver = Raise ValueError f.
Proof.
  intros E. unfold FundTransaction.sign. rewrite E.
  destruct (FundTransaction.unspent f) as [[|u us]|];
    destruct (FundTransaction.previous_transaction_indexes f) as [[|i l]|];
    reflexivity.
Qed.

(** C5, the part the code misses: [sign] of the Claim and Refund variants has
    no check of its own, and on a transaction that is not built yet it ends in
    the [AttributeError] of [None.spend], not in the [ValueError] that
    [FundTransaction.sign] and the views raise. *)
Theorem claim_refund_sign_before_build (c : ClaimTransaction.t)
    (r : RefundTransaction.t) (claim_solver : ClaimSolver)
    (refund_solver : RefundSolver) :
  Transaction.transaction (ClaimTransaction.base c) = None ->
  Transaction.transaction (RefundTransaction.base r) = None ->
  ClaimTransaction.sign c claim_solver = Raise AttributeError c /\
  RefundTransaction.sign r refund_solver = Raise AttributeError r.
Proof.
  intros Ec Er. unfold ClaimTransaction.sign, RefundTransaction.sign.
  rewrite Ec, Er. split; reflexivity.
Qed.

Lemma claim_refund_sign_before_build_witness :
  Transaction.transaction (ClaimTransaction.base Sample.claim) = None /\
  Transaction.transaction (RefundTransaction.base Sample.refund) = None /\
  ClaimTransaction.sign Sample.claim Sample.claim_solver
  = Raise AttributeError Sample.claim /\
  RefundTransaction.sign Sample.refund Sample.refund_solver
  = Raise AttributeError Sample.refund.
Proof.
  split; [reflexivity|]. split; [reflexivity|].
  apply (claim_refund_sign_before_build Sample.claim Sample.refund
           Sample.claim_solver Sample.refund_solver); reflexivity.
Defined.

(** ** The Refund and Claim builders *)

Section ContractSpending.
Context {L : Btcpy.Library}.

(** When the Refund builder returns, this is the transaction it made. *)
Lemma refund_build_transaction_inv (self : RefundTransaction.t) (locktime : Z) :
  raised (RefundTransaction.build_transaction self locktime) = None ->
  Btcpy.is_p2pkh (p2pkh (RefundTransaction.wallet self)) = true /\
  0 <= locktime < 2 ^ 32 /\
  0 <= RefundTransaction.htlc_value self - 576 < 2 ^ 64 /\
  RefundTransaction.build_transaction self locktime
  = Return
      (RefundTransaction.set_base self
         (Transaction.set_transaction
            (Transaction.set_fee (RefundTransaction.base self) 576)
            (Some
               {| Btcpy.version :=
                    Transaction.version (RefundTransaction.base self);
                  Btcpy.ins :=
                    [ {| Btcpy.txid := RefundTransaction.htlc_transaction_id self;
                         Btcpy.txout := 0;
                         Btcpy.script_sig := Btcpy.ScriptSig_empty;
                         Btcpy.sequence := Btcpy.Sequence_max |} ];
                  Btcpy.outs :=
                    [ {| Btcpy.value := RefundTransaction.htlc_value self - 576;
                         Btcpy.n := 0;
                         Btcpy.script_pubkey :=
                           Btcpy.P2pkhScript_unhexlify
                             (p2pkh (RefundTransaction.wallet self)) |} ];
                  Btcpy.locktime := locktime |}))).
Proof.
  unfold RefundTransaction.build_transaction, Btcpy.unhexlify_P2pkh,
    Btcpy.Locktime, Btcpy.new_transaction.
  cbn [RefundTransaction.wallet RefundTransaction.set_base
       RefundTransaction.base RefundTransaction.htlc_value
       RefundTransaction.htlc_transaction_id Transaction.version
       Transaction.set_fee Transaction.fee].
  change (Utils.fee_calculator 1 1) with 576.
  destruct (Btcpy.is_p2pkh (p2pkh (RefundTransaction.wallet self)));
    cbn [bind]; [|discriminate].
  destruct (Z.leb_spec 0 locktime); cbn [andb bind]; [|discriminate].
  destruct (Z.ltb_spec locktime (2 ^ 32)); cbn [andb bind]; [|discriminate].
  destruct (Btcpy.serializes _ _); cbn [negb]; [|discriminate].
  cbn [Btcpy.check_values Btcpy.value].
  destruct (Z.leb_spec 0 (RefundTransaction.htlc_value self - 576));
    cbn [andb]; [|discriminate].
  destruct (Z.ltb_spec (RefundTransaction.htlc_value self - 576) (2 ^ 64));
    cbn [andb]; [|discriminate].
  intros _. repeat split; try assumption; reflexivity.
Qed.

(** When the Claim builder returns, this is the transaction it made. *)
Lemma claim_build_transaction_inv (self : ClaimTransaction.t) (locktime : Z) :
  raised (ClaimTransaction.build_transaction self locktime) = None ->
  Btcpy.is_p2pkh (p2pkh (ClaimTransaction.wallet self)) = true /\
  0 <= locktime < 2 ^ 32 /\
  0 <= ClaimTransaction.htlc_value self - 576 < 2 ^ 64 /\
  ClaimTransaction.build_transaction self locktime
  = Return
      (ClaimTransaction.set_base self
         (Transaction.set_transaction
            (Transaction.set_fee (ClaimTransaction.base self) 576)
            (Some
               {| Btcpy.version :=
                    Transaction.version (ClaimTransaction.base self);
                  Btcpy.ins :=
                    [ {| Btcpy.txid := ClaimTransaction.htlc_transaction_id self;
                         Btcpy.txout := 0;
                         Btcpy.script_sig := Btcpy.ScriptSig_empty;
                         Btcpy.sequence := Btcpy.Sequence_max |} ];
                  Btcpy.outs :=
                    [ {| Btcpy.value := ClaimTransaction.htlc_value self - 576;
                         Btcpy.n := 0;
                         Btcpy.script_pubkey :=
                           Btcpy.P2pkhScript_unhexlify
                             (p2pkh (ClaimTransaction.wallet self)) |} ];
                  Btcpy.locktime := locktime |}))).
Proof.
  unfold ClaimTransaction.build_transaction, Btcpy.unhexlify_P2pkh,
    Btcpy.Locktime, Btcpy.new_transaction.
  cbn [ClaimTransaction.wallet ClaimTransaction.set_base
       ClaimTransaction.base ClaimTransaction.htlc_value
       ClaimTransaction.htlc_transaction_id Transaction.version
       Transaction.set_fee Transaction.fee].
  change (Utils.fee_calculator 1 1) with 576.
  destruct (Btcpy.is_p2pkh (p2pkh (ClaimTransaction.wallet self)));
    cbn [bind]; [|discriminate].
  destruct (Z.leb_spec 0 locktime); cbn [andb bind]; [|discriminate].
  destruct (Z.ltb_spec locktime (2 ^ 32)); cbn [andb bind]; [|discriminate].
  destruct (Btcpy.serializes _ _); cbn [negb]; [|discriminate].
  cbn [Btcpy.check_values Btcpy.value].
  destruct (Z.leb_spec 0 (ClaimTransaction.htlc_value self - 576));
    cbn [andb]; [|discriminate].
  destruct (Z.ltb_spec (ClaimTransaction.htlc_value self - 576) (2 ^ 64));
    cbn [andb]; [|discriminate].
  intros _. repeat split; try assumption; reflexivity.
Qed.


(** Replacing the cached contract script does not change whether the Claim
    builder returns. *)
Lemma with_htlc_script_build (self : ClaimTransaction.t) (cached : Btcpy.Script)
    (locktime : Z) :
  raised (ClaimTransaction.build_transaction (with_htlc_script self cached)
            locktime)
  = raised (ClaimTransaction.build_transaction self locktime).
Proof.
  unfold ClaimTransaction.build_transaction. cbn.
  destruct (bind _ _); reflexivity.
Qed.

(** C8 (as the code has it): after a [build_transaction] that returned,
    [ClaimTransaction.sign] returns, and it derives the contract script anew
    from the hash of the solver's secret and the solver's sequence, with the
    address of the object's own wallet as recipient and, as sender, the
    address the constructor read from the funding transaction's second
    output; that script is the redeem script of the P2SH solver.  The script
    cached from the funding output, whatever it is, only describes the spent
    output. *)
Theorem claim_sign_rederives_contract (self : ClaimTransaction.t)
    (locktime : Z) (solver : ClaimSolver) (cached : Btcpy.Script) :
  let fresh :=
    HTLC_init (Transaction.network (ClaimTransaction.base self))
      (Btcpy.double_sha256 (claim_secret solver))
      (address (ClaimTransaction.wallet self))
      (ClaimTransaction.sender_address self) (claim_sequence solver) in
  let built :=
    object (ClaimTransaction.build_transaction (with_htlc_script self cached)
              locktime) in
  raised (ClaimTransaction.build_transaction (with_htlc_script self cached)
            locktime) = None ->
  exists signed tx,
    ClaimTransaction.sign built solver = Return signed /\
    Transaction.transaction (ClaimTransaction.base signed) = Some tx /\
    map Btcpy.script_sig (Btcpy.ins tx)
    = [ Btcpy.ScriptSig_solved
          {| Btcpy.value := ClaimTransaction.htlc_value self; Btcpy.n := 0;
             Btcpy.script_pubkey := cached |}
          (Btcpy.P2shSolver fresh (ClaimSolver_solve solver)) ] /\
    fresh = Btcpy.HTLC_script (Btcpy.double_sha256 (claim_secret solver))
              (address (ClaimTransaction.wallet self))
              (ClaimTransaction.sender_address self) (claim_sequence solver).
Proof.
  intros fresh built Hret. subst built.
  destruct (claim_build_transaction_inv _ locktime Hret) as (_ & _ & _ & ->).
  do 2 eexists. split; [reflexivity|]. cbn. repeat split.
Qed.

(** The refund path: the solver's own part does not read the secret. *)
Lemma refund_solve_ignores_secret (s1 s2 : RefundSolver) :
  refund_private_key s1 = refund_private_key s2 ->
  refund_sequence s1 = refund_sequence s2 ->
  RefundSolver_solve s1 = RefundSolver_solve s2.
Proof. intros Ek Es. unfold RefundSolver_solve. now rewrite Ek, Es. Qed.

(** C7 (as the code has it): [RefundTransaction.sign] derives the contract
    script from [double_sha256(solver.secret)], so on a transaction that was
    built two refund solvers with the same private key and sequence give the
    same unlocking witness exactly when their secrets hash to the same value;
    only [solver.solve()] is independent of the secret. *)
Theorem refund_sign_follows_secret_hash (self : RefundTransaction.t)
    (locktime : Z) (s1 s2 : RefundSolver) :
  refund_private_key s1 = refund_private_key s2 ->
  refund_sequence s1 = refund_sequence s2 ->
  raised (RefundTransaction.build_transaction self locktime) = None ->
  let built := object (RefundTransaction.build_transaction self locktime) in
  RefundSolver_solve s1 = RefundSolver_solve s2 /\
  (RefundTransaction.sign built s1 = RefundTransaction.sign built s2 <->
   Btcpy.double_sha256 (refund_secret s1) = Btcpy.double_sha256 (refund_secret s2)).
Proof.
  intros Hkey Hseq Hret built. subst built.
  split; [now apply refund_solve_ignores_secret|].
  destruct (refund_build_transaction_inv self locktime Hret) as (_ & _ & _ & ->).
  unfold RefundTransaction.sign, RefundSolver_solve. cbn.
  rewrite Hkey, Hseq. split.
  - intros E. injection E as E. now rewrite E.
  - intros E. rewrite E. reflexivity.
Qed.

End ContractSpending.



Lemma claim_sign_rederives_contract_witness :
  raised (@ClaimTransaction.build_transaction Sample.library
            (with_htlc_script Sample.claim (Btcpy.Script_unhexlify "00")) 0)
  = None /\
  exists signed tx,
    ClaimTransaction.sign
      (object (@ClaimTransaction.build_transaction Sample.library
                 (with_htlc_script Sample.claim (Btcpy.Script_unhexlify "00")) 0))
      Sample.claim_solver = Return signed /\
    Transaction.transaction (ClaimTransaction.base signed) = Some tx /\
    map Btcpy.script_sig (Btcpy.ins tx)
    = [ Btcpy.ScriptSig_solved
          {| Btcpy.value := 10000; Btcpy.n := 0;
             Btcpy.script_pubkey := Btcpy.Script_unhexlify "00" |}
          (Btcpy.P2shSolver
             (Btcpy.HTLC_script (Btcpy.double_sha256 "Hello Meheret!")
                (Btcpy.Address_from_string "mrecipient")
                (Btcpy.P2pkh_address "76a914aa88ac" false) 5)
             (ClaimSolver_solve Sample.claim_solver)) ].
Proof.
  split; [reflexivity|].
  destruct (@claim_sign_rederives_contract Sample.library Sample.claim 0
              Sample.claim_solver (Btcpy.Script_unhexlify "00") eq_refl)
    as (signed & tx & Hs & Htx & Hsig & _).
  exists signed, tx. split; [exact Hs|]. split; [exact Htx|exact Hsig].
Defined.

(** C8 as stated fails: the identities are not supplied by the solver.  The
    same solver signs two Claim objects that differ only in the second output
    of the funding transaction they were constructed from, and the contract
    scripts derived for the two differ in the sender. *)
Lemma claim_contract_depends_on_funding_output :
  exists c c' signed signed' tx tx',
    @ClaimTransaction.init Sample.library "f00d" Sample.recipient_wallet
      "testnet" 2
      (Some [ {| detail_value := 10000; detail_script := "a914cc87" |};
              {| detail_value := 500; detail_script := "76a914aa88ac" |} ])
    = Ok c /\
    @ClaimTransaction.init Sample.library "f00d" Sample.recipient_wallet
      "testnet" 2
      (Some [ {| detail_value := 10000; detail_script := "a914cc87" |};
              {| detail_value := 500; detail_script := "76a914dd88ac" |} ])
    = Ok c' /\
    ClaimTransaction.sign
      (object (@ClaimTransaction.build_transaction Sample.library c 0))
      Sample.claim_solver = Return signed /\
    ClaimTransaction.sign
      (object (@ClaimTransaction.build_transaction Sample.library c' 0))
      Sample.claim_solver = Return signed' /\
    Transaction.transaction (ClaimTransaction.base signed) = Some tx /\
    Transaction.transaction (ClaimTransaction.base signed') = Some tx' /\
    map Btcpy.script_sig (Btcpy.ins tx)
    = [ Btcpy.ScriptSig_solved
          {| Btcpy.value := 10000; Btcpy.n := 0;
             Btcpy.script_pubkey := Btcpy.P2shScript_unhexlify "a914cc87" |}
          (Btcpy.P2shSolver
             (Btcpy.HTLC_script (Btcpy.double_sha256 "Hello Meheret!")
                (Btcpy.Address_from_string "mrecipient")
                (Btcpy.P2pkh_address "76a914aa88ac" false) 5)
             (ClaimSolver_solve Sample.claim_solver)) ] /\
    map Btcpy.script_sig (Btcpy.ins tx')
    = [ Btcpy.ScriptSig_solved
          {| Btcpy.value := 10000; Btcpy.n := 0;
             Btcpy.script_pubkey := Btcpy.P2shScript_unhexlify "a914cc87" |}
          (Btcpy.P2shSolver
             (Btcpy.HTLC_script (Btcpy.double_sha256 "Hello Meheret!")
                (Btcpy.Address_from_string "mrecipient")
                (Btcpy.P2pkh_address "76a914dd88ac" false) 5)
             (ClaimSolver_solve Sample.claim_solver)) ] /\
    Btcpy.P2pkh_address "76a914aa88ac" false
    <> Btcpy.P2pkh_address "76a914dd88ac" false.
Proof.
  do 6 eexists. split; [reflexivity|]. split; [reflexivity|].
  split; [reflexivity|]. split; [reflexivity|]. split; [reflexivity|].
  split; [reflexivity|]. split; [reflexivity|]. split; [reflexivity|].
  discriminate.
Qed.

Lemma refund_sign_follows_secret_hash_witness :
  refund_private_key Sample.refund_solver
  = refund_private_key Sample.refund_solver' /\
  refund_sequence Sample.refund_solver = refund_sequence Sample.refund_solver' /\
  raised (@RefundTransaction.build_transaction Sample.library Sample.refund 0)
  = None /\
  RefundSolver_solve Sample.refund_solver
  = RefundSolver_solve Sample.refund_solver' /\
  (RefundTransaction.sign
     (object (@RefundTransaction.build_transaction Sample.library
                Sample.refund 0))
     Sample.refund_solver
   = RefundTransaction.sign
       (object (@RefundTransaction.build_transaction Sample.library
                  Sample.refund 0))
       Sample.refund_solver' <->
   Btcpy.double_sha256 (refund_secret Sample.refund_solver)
   = Btcpy.double_sha256 (refund_secret Sample.refund_solver')).
Proof.
  split; [reflexivity|]. split; [reflexivity|]. split; [reflexivity|].
  apply (@refund_sign_follows_secret_hash Sample.library Sample.refund 0
           Sample.refund_solver Sample.refund_solver'); reflexivity.
Defined.

(** C7 as stated fails: the two sample refund solvers have the same private
    key and sequence and different secrets, and signing the same built
    transaction with them gives different unlocking witnesses. *)
Lemma refund_sign_depends_on_secret :
  refund_private_key Sample.refund_solver
  = refund_private_key Sample.refund_solver' /\
  refund_sequence Sample.refund_solver = refund_sequence Sample.refund_solver' /\
  refund_secret Sample.refund_solver <> refund_secret Sample.refund_solver' /\
  RefundTransaction.sign
    (object (@RefundTransaction.build_transaction Sample.library
               Sample.refund 0))
    Sample.refund_solver
  <> RefundTransaction.sign
       (object (@RefundTransaction.build_transaction Sample.library
                  Sample.refund 0))
       Sample.refund_solver'.
Proof.
  split; [reflexivity|]. split; [reflexivity|].
  split; cbn; intros E; discriminate E.
Qed.

(** ** The envelope *)

Lemma is_in_recognized_types (v : json) :
  Utils.is_in v Utils.recognized_types = true <->
  exists tag, v = JStr tag /\ In tag Utils.recognized_types.
Proof.
  unfold Utils.is_in. split.
  - destruct v; try discriminate. intros E.
    apply existsb_exists in E. destruct E as (tag & Hin & Heq).
    apply String.eqb_eq in Heq. subst. eauto.
  - intros (tag & -> & Hin). apply existsb_exists.
    exists tag. split; [assumption|apply String.eqb_refl].
Qed.

Section Decoding.
Context `{Codec} `{TransactionView}.

Lemma is_transaction_raw_true_iff (transaction_raw : string) :
  Utils.is_transaction_raw transaction_raw = true <->
  exists loaded tag,
    b64_json_loads transaction_raw = Some loaded /\
    getitem loaded "type" = Ok (JStr tag) /\
    In tag Utils.recognized_types.
Proof.
  unfold Utils.is_transaction_raw. split.
  - destruct (b64_json_loads transaction_raw) as [loaded|]; [|discriminate].
    destruct (getitem loaded "type") as [v|e] eqn:Etype; [|discriminate].
    intros E. apply is_in_recognized_types in E.
    destruct E as (tag & -> & Hin). exists loaded, tag. auto.
  - intros (loaded & tag & -> & -> & Hin).
    apply is_in_recognized_types. eauto.
Qed.





End Decoding.



(** ** Selections and the lists built from them *)

Lemma picked_all {U : Type} (utxos : list U) :
  forall index, picked None index utxos = utxos.
Proof.
  induction utxos as [|u rest IH]; intros index; simpl; [reflexivity|].
  now rewrite IH.
Qed.

Lemma picked_prefix {U : Type} (n : nat) (utxos : list U) :
  forall index, picked (Some (seq 0 n)) index utxos = firstn (n - index) utxos.
Proof.
  induction utxos as [|u rest IH]; intros index.
  - now rewrite firstn_nil.
  - cbn [picked]. rewrite selected_prefix, IH.
    destruct (Nat.ltb_spec index n) as [Hlt|Hge].
    + replace (n - index)%nat with (S (n - S index)) by lia. reflexivity.
    + replace (n - S index)%nat with 0%nat by lia.
      replace (n - index)%nat with 0%nat by lia. reflexivity.
Qed.

Lemma picked_length {U : Type} (indexes : option (list nat)) (utxos : list U) :
  forall index, (List.length (picked indexes index utxos) <= List.length utxos)%nat.
Proof.
  induction utxos as [|u rest IH]; intros index; simpl; [lia|].
  destruct (Transaction.selected indexes index); simpl;
    specialize (IH (S index)); lia.
Qed.

Lemma inputs_loop_picked (indexes : option (list nat)) (utxos : list utxo) :
  forall index inputs amount,
    Transaction.inputs_loop utxos indexes index inputs amount
    = (inputs ++ map Transaction.new_input (picked indexes index utxos),
       amount + total Shuttle.amount (picked indexes index utxos)).
Proof.
  induction utxos as [|u rest IH]; intros index inputs amount; simpl.
  - now rewrite app_nil_r, Z.add_0_r.
  - destruct (Transaction.selected indexes index); rewrite IH; [|reflexivity].
    simpl. rewrite <- app_assoc. f_equal. lia.
Qed.

Lemma outputs_loop_picked (indexes : option (list nat)) (utxos : list utxo) :
  forall index outputs,
    Transaction.outputs_loop utxos indexes index outputs
    = outputs ++ map Transaction.new_output (picked indexes index utxos).
Proof.
  induction utxos as [|u rest IH]; intros index outputs; simpl.
  - now rewrite app_nil_r.
  - destruct (Transaction.selected indexes index); rewrite IH; [|reflexivity].
    simpl. now rewrite <- app_assoc.
Qed.

Lemma envelope_outputs_picked (indexes : option (list nat))
    (utxos : list utxo) :
  forall index outputs,
    FundTransaction.envelope_outputs utxos indexes index outputs
    = outputs ++ map FundTransaction.envelope_output (picked indexes index utxos).
Proof.
  induction utxos as [|u rest IH]; intros index outputs; simpl.
  - now rewrite app_nil_r.
  - destruct (Transaction.selected indexes index); rewrite IH; [|reflexivity].
    simpl. now rewrite <- app_assoc.
Qed.

Lemma build_inputs_loop_picked (indexes : option (list nat))
    (utxos : list Utils.utxo) :
  forall index inputs amount,
    Builders._build_inputs_loop utxos indexes index inputs amount
    = (inputs ++ map Builders.new_input (picked indexes index utxos),
       amount + total Utils.value (picked indexes index utxos)).
Proof.
  induction utxos as [|u rest IH]; intros index inputs amount; simpl.
  - now rewrite app_nil_r, Z.add_0_r.
  - destruct (Transaction.selected indexes index); rewrite IH; [|reflexivity].
    simpl. rewrite <- app_assoc. f_equal. lia.
Qed.

Lemma build_outputs_loop_picked (indexes : option (list nat))
    (only_dict : bool) (utxos : list Utils.utxo) :
  forall index outputs,
    Builders._build_outputs_loop utxos indexes only_dict index outputs
    = outputs ++ map (Builders.new_output only_dict) (picked indexes index utxos).
Proof.
  induction utxos as [|u rest IH]; intros index outputs; simpl.
  - now rewrite app_nil_r.
  - destruct (Transaction.selected indexes index); rewrite IH; [|reflexivity].
    simpl. now rewrite <- app_assoc.
Qed.

(** X1: for any list of unspent outputs and any selection (or none, which
    selects everything), [inputs] and [outputs] walk the same items in the
    same order: there are as many inputs as previous outputs, the i-th input
    points at the transaction and index of the i-th previous output's item,
    and the amount returned is the sum of the previous outputs' values. *)
Theorem inputs_outputs_aligned (utxos : list utxo)
    (indexes : option (list nat)) :
  let chosen := picked indexes 0 utxos in
  let ins := fst (Transaction.inputs utxos indexes) in
  let accumulated := snd (Transaction.inputs utxos indexes) in
  let outs := Transaction.outputs utxos indexes in
  ins = map Transaction.new_input chosen /\
  outs = map Transaction.new_output chosen /\
  List.length ins = List.length outs /\
  map Btcpy.txout ins = map Btcpy.n outs /\
  map Btcpy.txid ins = map hash chosen /\
  accumulated = total Btcpy.value outs /\
  (List.length ins <= List.length utxos)%nat /\
  Transaction.inputs utxos None
  = (map Transaction.new_input utxos, total Shuttle.amount utxos).
Proof.
  cbv zeta. unfold Transaction.inputs, Transaction.outputs.
  rewrite !inputs_loop_picked, outputs_loop_picked, picked_all. cbn [fst snd app].
  set (chosen := picked indexes 0 utxos).
  repeat split.
  - now rewrite !length_map.
  - rewrite !map_map. reflexivity.
  - rewrite map_map. reflexivity.
  - induction chosen as [|u l IH]; simpl in *; [reflexivity|]. lia.
  - rewrite length_map. apply picked_length.
Qed.

(** X2: the builders of utils.py agree in the same way: [_build_inputs] and
    [_build_outputs] take the same items in the same order, the dict form of
    an output carries the same value, index and script as its [TxOut] form,
    and the amount is the sum of the selected values. *)
Theorem build_inputs_outputs_aligned (utxos : list Utils.utxo)
    (indexes : option (list nat)) :
  let chosen := picked indexes 0 utxos in
  Builders._build_inputs utxos indexes
  = (map Builders.new_input chosen, total Utils.value chosen) /\
  Builders._build_outputs utxos indexes false
  = map (fun u => Builders.AsTxOut
                    {| Btcpy.value := Utils.value u;
                       Btcpy.n := Utils.tx_output_n u;
                       Btcpy.script_pubkey :=
                         Btcpy.Script_unhexlify (Utils.script u) |}) chosen /\
  Builders._build_outputs utxos indexes true
  = map (fun u => Builders.AsDict
                    (JDict [("value", JInt (Utils.value u));
                            ("tx_output_n", JInt (Utils.tx_output_n u));
                            ("script", JStr (Utils.script u))])) chosen /\
  List.length (fst (Builders._build_inputs utxos indexes))
  = List.length (Builders._build_outputs utxos indexes true) /\
  (indexes = None -> chosen = utxos).
Proof.
  cbv zeta. unfold Builders._build_inputs, Builders._build_outputs.
  rewrite build_inputs_loop_picked, !build_outputs_loop_picked.
  cbn [fst snd app]. repeat split.
  - now rewrite !length_map.
  - intros ->. apply picked_all.
Qed.

(** The complete account of the loop: it appends [n] consecutive indexes, none
    of the first [n - 1] prefixes passes the test, and either the [n]-th does
    or the list is exhausted. *)
Lemma indexes_loop_spec {U : Type} (value_of : U -> Z) (utxos : list U)
    (amount : Z) :
  forall (index : nat) (temp_amount : Z) (acc : list nat),
    exists n,
      (n <= List.length utxos)%nat /\
      Utils.indexes_loop value_of utxos amount index temp_amount acc
      = acc ++ seq index n /\
      (utxos <> [] -> (1 <= n)%nat) /\
      (forall j, (1 <= j < n)%nat ->
         temp_amount + prefix_amount value_of utxos j
         <= amount + Utils.fee_calculator (Z.of_nat (index + j)) 2) /\
      ((n < List.length utxos)%nat ->
       temp_amount + prefix_amount value_of utxos n
       > amount + Utils.fee_calculator (Z.of_nat (index + n)) 2).
Proof.
  induction utxos as [|u rest IH]; intros index t acc.
  - exists 0%nat. simpl. rewrite app_nil_r.
    repeat split; try lia; congruence.
  - cbn [Utils.indexes_loop].
    destruct (Z.gtb_spec (t + value_of u)
                (amount + Utils.fee_calculator (Z.of_nat index + 1) 2))
      as [Hfire|Hno].
    + exists 1%nat. simpl. repeat split; try lia.
      intros _. rewrite prefix_amount_cons. unfold prefix_amount. simpl.
      replace (Z.of_nat (index + 1)) with (Z.of_nat index + 1) by lia. lia.
    + destruct (IH (S index) (t + value_of u) (acc ++ [index]))
        as (n & Hn & E & _ & Hmin & Hstop).
      exists (S n). rewrite E, <- app_assoc. simpl.
      repeat split; try lia.
      * intros j Hj. destruct j as [|j]; [lia|].
        rewrite prefix_amount_cons. destruct j as [|j].
        -- unfold prefix_amount. simpl.
           replace (Z.of_nat (index + 1)) with (Z.of_nat index + 1) by lia. lia.
        -- specialize (Hmin (S j) ltac:(lia)).
           replace (index + S (S j))%nat with (S index + S j)%nat by lia. lia.
      * intros Hlt. specialize (Hstop ltac:(lia)).
        rewrite prefix_amount_cons.
        replace (index + S n)%nat with (S index + n)%nat by lia. lia.
Qed.

Lemma indexes_from_start_spec {U : Type} (value_of : U -> Z) (utxos : list U)
    (amount : Z) :
  exists n,
    (n <= List.length utxos)%nat /\
    Utils.indexes_loop value_of utxos amount 0%nat 0 [] = seq 0 n /\
    (utxos <> [] -> (1 <= n)%nat) /\
    (forall j, (1 <= j < n)%nat -> ~ exceeds value_of utxos amount j) /\
    ((n < List.length utxos)%nat -> exceeds value_of utxos amount n).
Proof.
  destruct (indexes_loop_spec value_of utxos amount 0%nat 0 [])
    as (n & Hn & E & Hpos & Hmin & Hstop).
  exists n. unfold exceeds. simpl in *.
  split; [exact Hn|]. split; [exact E|]. split; [exact Hpos|]. split.
  - intros j Hj. specialize (Hmin j Hj). lia.
  - intros Hlt. specialize (Hstop Hlt). lia.
Qed.

(** X3: selecting with [_get_previous_transaction_indexes] and then building
    the inputs yields the first [n] outputs of the list; when the selection
    stops before the end of the list, the amount they carry strictly covers
    the target plus the fee for [n] inputs and two outputs, and no shorter
    prefix passes the loop's test. *)
Theorem select_then_build_inputs (utxos : list Utils.utxo) (amount : Z) :
  exists n,
    (n <= List.length utxos)%nat /\
    Utils._get_previous_transaction_indexes utxos amount = seq 0 n /\
    Builders._build_inputs utxos
      (Some (Utils._get_previous_transaction_indexes utxos amount))
    = (map Builders.new_input (firstn n utxos), prefix_amount Utils.value utxos n) /\
    ((n < List.length utxos)%nat ->
     prefix_amount Utils.value utxos n
     > amount + Utils.fee_calculator (Z.of_nat n) 2) /\
    (forall j, (1 <= j < n)%nat ->
       prefix_amount Utils.value utxos j
       <= amount + Utils.fee_calculator (Z.of_nat j) 2).
Proof.
  destruct (indexes_from_start_spec Utils.value utxos amount)
    as (n & Hn & E & _ & Hmin & Hstop).
  exists n. unfold Utils._get_previous_transaction_indexes. rewrite E.
  split; [exact Hn|]. split; [reflexivity|]. split; [|split].
  - unfold Builders._build_inputs. rewrite build_inputs_loop_picked, picked_prefix.
    rewrite Nat.sub_0_r. reflexivity.
  - intros Hlt. apply Hstop in Hlt. exact Hlt.
  - intros j Hj. specialize (Hmin j Hj). unfold exceeds in Hmin. lia.
Qed.

(** ** More on the Fund builder *)

(** The fields [build_transaction] records before it selects. *)
Lemma fund_build_transaction_fields {L : Btcpy.Library}
    (self : FundTransaction.t) (wallet : Wallet)
    (htlc : HTLC) (amount locktime : Z) :
  let built := FundTransaction.build_transaction self wallet htlc amount locktime in
  FundTransaction.wallet (object built) = Some wallet /\
  FundTransaction.htlc (object built) = Some htlc /\
  FundTransaction.amount (object built) = Some amount /\
  FundTransaction.unspent (object built) = Some (unspent wallet).
Proof.
  cbv zeta. unfold FundTransaction.build_transaction,
    FundTransaction.get_previous_transaction_indexes.
  cbn [FundTransaction.unspent].
  destruct (Transaction.inputs (unspent wallet) _) as [inputs accumulated].
  destruct (accumulated <? _); [cbn; repeat split|].
  destruct (FundTransaction.funding_transaction _ _ _ _ _ _ _ _);
    cbn; repeat split.
Qed.

(** Selection and outcome of [build_transaction] in one statement: the
    balance error, an error of the library, or the transaction. *)
Lemma fund_build_transaction_spec {L : Btcpy.Library}
    (self : FundTransaction.t) (wallet : Wallet)
    (htlc : HTLC) (amount locktime : Z) :
  let built := FundTransaction.build_transaction self wallet htlc amount locktime in
  exists n,
    (n <= List.length (unspent wallet))%nat /\
    (unspent wallet <> [] -> (1 <= n)%nat) /\
    FundTransaction.previous_transaction_indexes (object built) = Some (seq 0 n) /\
    Transaction.fee (FundTransaction.base (object built))
    = Utils.fee_calculator (Z.of_nat n) 2 /\
    (forall j, (1 <= j < n)%nat ->
       prefix_amount Shuttle.amount (unspent wallet) j
       <= amount + Utils.fee_calculator (Z.of_nat j) 2) /\
    ((n < List.length (unspent wallet))%nat ->
     prefix_amount Shuttle.amount (unspent wallet) n
     > amount + Utils.fee_calculator (Z.of_nat n) 2) /\
    ((prefix_amount Shuttle.amount (unspent wallet) n
      < amount + Utils.fee_calculator (Z.of_nat n) 2 /\
      raised built = Some BalanceError /\
      Transaction.transaction (FundTransaction.base (object built))
      = Transaction.transaction (FundTransaction.base self))
     \/
     (prefix_amount Shuttle.amount (unspent wallet) n
      >= amount + Utils.fee_calculator (Z.of_nat n) 2 /\
      (exists e, raised built = Some e /\ e <> BalanceError) /\
      Transaction.transaction (FundTransaction.base (object built))
      = Transaction.transaction (FundTransaction.base self))
     \/
     (prefix_amount Shuttle.amount (unspent wallet) n
      >= amount + Utils.fee_calculator (Z.of_nat n) 2 /\
      raised built = None /\
      Transaction.transaction (FundTransaction.base (object built))
      = Some {| Btcpy.version := Transaction.version (FundTransaction.base self);
                Btcpy.ins := map Transaction.new_input (firstn n (unspent wallet));
                Btcpy.outs := [
                  {| Btcpy.value := amount; Btcpy.n := 0;
                     Btcpy.script_pubkey :=
                       Btcpy.P2shScript_unhexlify (htlc_hash htlc) |};
                  {| Btcpy.value :=
                       prefix_amount Shuttle.amount (unspent wallet) n
                       - Utils.fee_calculator (Z.of_nat n) 2 - amount;
                     Btcpy.n := 1;
                     Btcpy.script_pubkey :=
                       Btcpy.P2pkhScript_unhexlify (p2pkh wallet) |} ];
                Btcpy.locktime := locktime |})).
Proof.
  intros built.
  destruct (indexes_from_start_spec Shuttle.amount (unspent wallet) amount)
    as (n & Hn & E & Hpos & Hmin & Hstop).
  destruct (fund_build_transaction_prefix self wallet htlc amount locktime n Hn E)
    as (Hidx & _ & Hfee & Hlow & Hhigh).
  fold built in Hidx, Hfee, Hlow, Hhigh.
  exists n. split; [exact Hn|]. split; [exact Hpos|]. split; [exact Hidx|].
  split; [exact Hfee|]. split; [|split].
  - intros j Hj. specialize (Hmin j Hj). unfold exceeds in Hmin. lia.
  - intros Hlt. apply Hstop in Hlt. exact Hlt.
  - destruct (Z.lt_ge_cases (prefix_amount Shuttle.amount (unspent wallet) n)
                (amount + Utils.fee_calculator (Z.of_nat n) 2)) as [Hlt|Hge].
    + left. split; [exact Hlt|]. apply Hlow. exact Hlt.
    + right. specialize (Hhigh ltac:(lia)).
      destruct (FundTransaction.funding_transaction _ _ wallet htlc amount _ _
                  locktime) as [tx|e] eqn:Etx.
      * right. split; [lia|]. destruct Hhigh as (Hr & Htx).
        split; [exact Hr|]. rewrite Htx.
        apply funding_transaction_inv in Etx.
        destruct Etx as (_ & _ & _ & _ & _ & _ & ->). do 3 f_equal.
        f_equal. f_equal. lia.
      * left. split; [lia|]. destruct Hhigh as (Hr & Htx).
        split; [|exact Htx]. exists e. split; [exact Hr|].
        exact (funding_transaction_error _ _ _ _ _ _ _ _ _ Etx).
Qed.

(** X4: when [build_transaction] returns, value is conserved: the values of
    the two outputs plus the recorded fee equal the sum of the amounts of the
    outputs the inputs spend; the change is never negative, and it is strictly
    positive when the selection stopped before the end of the wallet's list. *)
Theorem fund_build_conserves_value {L : Btcpy.Library}
    (self : FundTransaction.t) (wallet : Wallet)
    (htlc : HTLC) (amount locktime : Z) :
  let built := FundTransaction.build_transaction self wallet htlc amount locktime in
  raised built = None ->
  exists tx n change,
    Transaction.transaction (FundTransaction.base (object built)) = Some tx /\
    FundTransaction.previous_transaction_indexes (object built) = Some (seq 0 n) /\
    Btcpy.ins tx = map Transaction.new_input (firstn n (unspent wallet)) /\
    map Btcpy.value (Btcpy.outs tx) = [amount; change] /\
    amount + change + Transaction.fee (FundTransaction.base (object built))
    = total Shuttle.amount (firstn n (unspent wallet)) /\
    0 <= change /\
    ((n < List.length (unspent wallet))%nat -> 0 < change).
Proof.
  intros built Hret. subst built.
  destruct (fund_build_transaction_spec self wallet htlc amount locktime)
    as (n & Hn & _ & Hidx & Hfee & _ & Hstop
        & [(_ & Hr & _)|[(_ & (e & Hr & _) & _)|(Hge & _ & Htx)]]).
  - rewrite Hr in Hret. discriminate.
  - rewrite Hr in Hret. discriminate.
  - eexists. exists n.
    exists (prefix_amount Shuttle.amount (unspent wallet) n
            - Utils.fee_calculator (Z.of_nat n) 2 - amount).
    split; [exact Htx|]. split; [exact Hidx|].
    split; [reflexivity|]. split; [reflexivity|].
    rewrite Hfee. unfold prefix_amount in *. split; [lia|]. split; [lia|].
    intros Hlt. specialize (Hstop Hlt). lia.
Qed.

Lemma fund_build_conserves_value_witness :
  raised (@FundTransaction.build_transaction Sample.library Sample.fund Sample.rich_wallet
            Sample.contract 1000 0) = None /\
  exists tx n change,
    Transaction.transaction
      (FundTransaction.base
         (object (@FundTransaction.build_transaction Sample.library Sample.fund
                    Sample.rich_wallet Sample.contract 1000 0))) = Some tx /\
    FundTransaction.previous_transaction_indexes
      (object (@FundTransaction.build_transaction Sample.library Sample.fund Sample.rich_wallet
                 Sample.contract 1000 0)) = Some (seq 0 n) /\
    Btcpy.ins tx
    = map Transaction.new_input (firstn n (unspent Sample.rich_wallet)) /\
    map Btcpy.value (Btcpy.outs tx) = [1000; change] /\
    1000 + change
    + Transaction.fee
        (FundTransaction.base
           (object (@FundTransaction.build_transaction Sample.library Sample.fund
                      Sample.rich_wallet Sample.contract 1000 0)))
    = total Shuttle.amount (firstn n (unspent Sample.rich_wallet)) /\
    0 <= change /\
    ((n < List.length (unspent Sample.rich_wallet))%nat -> 0 < change).
Proof.
  split; [reflexivity|].
  apply (@fund_build_conserves_value Sample.library Sample.fund Sample.rich_wallet
           Sample.contract 1000 0). reflexivity.
Defined.

(** X5: [build_transaction] raises the balance error only after taking every
    output of the wallet: then no prefix of the list strictly covers the
    target plus its fee, the whole wallet is below the target plus the fee for
    all its outputs, and the object keeps the transaction it had before (none
    on a new object) while the fee and the selection are overwritten. *)
Theorem fund_balance_error_exhausts_wallet {L : Btcpy.Library}
    (self : FundTransaction.t) (wallet : Wallet) (htlc : HTLC) (amount locktime : Z) :
  let built := FundTransaction.build_transaction self wallet htlc amount locktime in
  let count := List.length (unspent wallet) in
  raised built = Some BalanceError ->
  FundTransaction.previous_transaction_indexes (object built)
  = Some (seq 0 count) /\
  total Shuttle.amount (unspent wallet)
  < amount + Utils.fee_calculator (Z.of_nat count) 2 /\
  (forall k, (1 <= k <= count)%nat ->
     prefix_amount Shuttle.amount (unspent wallet) k
     <= amount + Utils.fee_calculator (Z.of_nat k) 2) /\
  Transaction.fee (FundTransaction.base (object built))
  = Utils.fee_calculator (Z.of_nat count) 2 /\
  Transaction.transaction (FundTransaction.base (object built))
  = Transaction.transaction (FundTransaction.base self).
Proof.
  intros built count Hraise. subst built.
  destruct (fund_build_transaction_spec self wallet htlc amount locktime)
    as (n & Hn & _ & Hidx & Hfee & Hmin & Hstop
        & [(Hlt & _ & Htx)|[(_ & (e & Hr & Hne) & _)|(_ & Hr & _)]]).
  2: { rewrite Hr in Hraise. injection Hraise as ->. congruence. }
  2: { rewrite Hr in Hraise. discriminate. }
  assert (En : n = count).
  { destruct (Nat.eq_dec n count) as [->|Hne]; [reflexivity|].
    assert (Hlt' : (n < count)%nat) by (unfold count; lia).
    specialize (Hstop Hlt'). lia. }
  subst n. split; [exact Hidx|]. split; [|split; [|split; [exact Hfee|exact Htx]]].
  - unfold prefix_amount, count in Hlt. rewrite firstn_all in Hlt. exact Hlt.
  - intros k Hk. destruct (Nat.eq_dec k count) as [->|Hne].
    + lia.
    + apply Hmin. lia.
Qed.

Lemma fund_balance_error_exhausts_wallet_witness :
  raised (@FundTransaction.build_transaction Sample.library Sample.fund Sample.poor_wallet
            Sample.contract 1000 0) = Some BalanceError /\
  FundTransaction.previous_transaction_indexes
    (object (@FundTransaction.build_transaction Sample.library Sample.fund Sample.poor_wallet
               Sample.contract 1000 0))
  = Some [0; 1]%nat /\
  total Shuttle.amount (unspent Sample.poor_wallet)
  < 1000 + Utils.fee_calculator 2 2.
Proof.
  split; [reflexivity|].
  destruct (@fund_balance_error_exhausts_wallet Sample.library Sample.fund Sample.poor_wallet
              Sample.contract 1000 0 eq_refl) as (Hidx & Hall & _).
  split; [exact Hidx|exact Hall].
Defined.

Lemma solve_inputs_aligned (chosen : list utxo) (solver : Btcpy.Solver) :
  Btcpy.solver_sequence solver = None ->
  Btcpy.solve_inputs (map Transaction.new_input chosen)
    (map Transaction.new_output chosen)
    (map (fun _ => solver) (map Transaction.new_output chosen))
  = map (fun u =>
           {| Btcpy.txid := hash u; Btcpy.txout := output_index u;
              Btcpy.script_sig :=
                Btcpy.ScriptSig_solved (Transaction.new_output u) solver;
              Btcpy.sequence := Btcpy.Sequence_max |}) chosen.
Proof.
  intros Hnone. induction chosen as [|u l IH]; simpl; [reflexivity|].
  unfold Btcpy.solve_input. rewrite IH, Hnone. reflexivity.
Qed.

(** X6: on a wallet that is not empty, a [build_transaction] that returned can
    always be signed: [sign] returns, keeps version, outputs and locktime, and
    every input, unchanged in what it points at, is unlocked against the
    previous output of its own item with the solver's key. *)
Theorem fund_build_then_sign {L : Btcpy.Library}
    (self : FundTransaction.t) (wallet : Wallet)
    (htlc : HTLC) (amount locktime : Z) (solver : FundSolver) :
  let built :=
    object (FundTransaction.build_transaction self wallet htlc amount locktime) in
  raised (FundTransaction.build_transaction self wallet htlc amount locktime)
  = None ->
  unspent wallet <> [] ->
  exists tx n signed,
    (1 <= n <= List.length (unspent wallet))%nat /\
    Transaction.transaction (FundTransaction.base built) = Some tx /\
    FundTransaction.sign built solver = Return signed /\
    Transaction.transaction (FundTransaction.base signed)
    = Some {| Btcpy.version := Btcpy.version tx;
              Btcpy.ins :=
                map (fun u =>
                       {| Btcpy.txid := hash u; Btcpy.txout := output_index u;
                          Btcpy.script_sig :=
                            Btcpy.ScriptSig_solved
                              {| Btcpy.value := Shuttle.amount u;
                                 Btcpy.n := output_index u;
                                 Btcpy.script_pubkey :=
                                   Btcpy.Script_unhexlify (script u) |}
                              (Btcpy.P2pkhSolver (fund_private_key solver));
                          Btcpy.sequence := Btcpy.Sequence_max |})
                    (firstn n (unspent wallet));
              Btcpy.outs := Btcpy.outs tx;
              Btcpy.locktime := Btcpy.locktime tx |} /\
    List.length (Btcpy.ins tx) = n.
Proof.
  intros built Hret Hne. subst built.
  destruct (fund_build_transaction_fields self wallet htlc amount locktime)
    as (_ & _ & _ & Hunspent).
  destruct (fund_build_transaction_spec self wallet htlc amount locktime)
    as (n & Hn & Hpos & Hidx & _ & _ & _
        & [(_ & Hr & _)|[(_ & (e & Hr & _) & _)|(_ & _ & Htx)]]).
  { rewrite Hr in Hret. discriminate. }
  { rewrite Hr in Hret. discriminate. }
  specialize (Hpos Hne).
  destruct (unspent wallet) as [|u us] eqn:Eu; [congruence|].
  destruct n as [|n]; [lia|].
  eexists. exists (S n). eexists. split; [lia|]. split; [exact Htx|].
  unfold FundTransaction.sign. rewrite Hunspent, Hidx, Htx. cbn [seq].
  change (0%nat :: seq 1 n) with (seq 0 (S n)).
  unfold Transaction.outputs. rewrite outputs_loop_picked, picked_prefix.
  rewrite Nat.sub_0_r. cbn [app].
  unfold Btcpy.spend. cbn [Btcpy.ins].
  rewrite !length_map, !Nat.eqb_refl. cbn [negb orb].
  unfold FundSolver_solve. rewrite solve_inputs_aligned by reflexivity.
  split; [reflexivity|]. split; [reflexivity|].
  apply firstn_length_le. exact Hn.
Qed.

Lemma fund_build_then_sign_witness :
  exists tx n signed,
    (1 <= n <= 1)%nat /\
    Transaction.transaction
      (FundTransaction.base
         (object (@FundTransaction.build_transaction Sample.library Sample.fund
                    Sample.rich_wallet Sample.contract 1000 0))) = Some tx /\
    FundTransaction.sign
      (object (@FundTransaction.build_transaction Sample.library Sample.fund Sample.rich_wallet
                 Sample.contract 1000 0)) Sample.fund_solver = Return signed /\
    map Btcpy.script_sig
      (match Transaction.transaction (FundTransaction.base signed) with
       | Some tx' => Btcpy.ins tx'
       | None => []
       end)
    = [ Btcpy.ScriptSig_solved
          {| Btcpy.value := 5000; Btcpy.n := 1;
             Btcpy.script_pubkey := Btcpy.Script_unhexlify "76a9" |}
          (Btcpy.P2pkhSolver "92cb") ].
Proof.
  destruct (@fund_build_then_sign Sample.library Sample.fund Sample.rich_wallet Sample.contract
              1000 0 Sample.fund_solver eq_refl)
    as (tx & n & signed & Hn & Htx & Hsign & Hsigned & _).
  - discriminate.
  - exists tx, n, signed. split; [exact Hn|]. split; [exact Htx|].
    split; [exact Hsign|]. rewrite Hsigned. cbn [Btcpy.ins].
    simpl in Hn. assert (n = 1%nat) as -> by lia. reflexivity.
Defined.

(** X7: with an empty wallet nothing is selected and the fee is the one for no
    input and two outputs, 234; [build_transaction] raises the balance error
    exactly when the amount exceeds -234, so for every amount that is not
    negative; and whatever the amount, the object it leaves can be neither
    signed nor exported: both end in [ValueError]. *)
Theorem fund_build_empty_wallet {L : Btcpy.Library} `{Serializer} `{Codec}
    (self : FundTransaction.t) (wallet : Wallet) (htlc : HTLC)
    (amount locktime : Z) (solver : FundSolver) :
  let outcome :=
    FundTransaction.build_transaction self wallet htlc amount locktime in
  unspent wallet = [] ->
  FundTransaction.previous_transaction_indexes (object outcome) = Some [] /\
  Transaction.fee (FundTransaction.base (object outcome)) = 234 /\
  (raised outcome = Some BalanceError <-> -234 < amount) /\
  (0 <= amount -> raised outcome = Some BalanceError) /\
  FundTransaction.sign (object outcome) solver
  = Raise ValueError (object outcome) /\
  FundTransaction.unsigned_raw (object outcome) = Err ValueError.
Proof.
  intros outcome Hempty. subst outcome.
  destruct (fund_build_transaction_fields self wallet htlc amount locktime)
    as (_ & _ & _ & Hunspent).
  destruct (fund_build_transaction_spec self wallet htlc amount locktime)
    as (n & Hn & _ & Hidx & Hfee & _ & _ & Hcases).
  rewrite Hempty in Hn, Hunspent, Hcases. simpl in Hn.
  assert (n = 0%nat) as -> by lia.
  change (Utils.fee_calculator (Z.of_nat 0) 2) with 234 in *.
  unfold prefix_amount in Hcases. simpl in Hcases.
  split; [exact Hidx|]. split; [exact Hfee|].
  assert (Hiff : raised (FundTransaction.build_transaction self wallet htlc
                           amount locktime) = Some BalanceError
                 <-> -234 < amount).
  { destruct Hcases as [(Hlt & Hr & _)|[(Hge & (e & Hr & Hne) & _)|(Hge & Hr & _)]];
      rewrite Hr; split; intros Hx; try lia; try reflexivity;
      try discriminate Hx.
    injection Hx as ->. congruence. }
  split; [exact Hiff|]. split; [intros Hpos; apply Hiff; lia|]. split.
  - unfold FundTransaction.sign. rewrite Hunspent. reflexivity.
  - unfold FundTransaction.unsigned_raw, FundTransaction.unsigned_envelope.
    rewrite Hunspent.
    destruct (Transaction.transaction _); reflexivity.
Qed.

Lemma fund_build_empty_wallet_witness :
  unspent Sample.recipient_wallet = [] /\
  raised (@FundTransaction.build_transaction Sample.library Sample.fund Sample.recipient_wallet
            Sample.contract 1000 0) = Some BalanceError /\
  Transaction.fee
    (FundTransaction.base
       (object (@FundTransaction.build_transaction Sample.library Sample.fund
                  Sample.recipient_wallet Sample.contract 1000 0))) = 234.
Proof.
  split; [reflexivity|].
  destruct (@fund_build_empty_wallet Sample.library Fixture.serializer
              Sample.docstring_codec
              Sample.fund Sample.recipient_wallet Sample.contract 1000 0
              Sample.fund_solver eq_refl) as (_ & Hfee & _ & Hraise & _).
  split; [apply Hraise; lia|exact Hfee].
Defined.

(** X8: the selection is reproducible from the object: after
    [build_transaction], whatever its outcome, [get_previous_transaction_indexes]
    called without an amount (it then reads [self.amount]) or with the same
    amount returns the recorded [previous_transaction_indexes]; on a new
    object, which has no unspent list yet, it ends in [TypeError]. *)
Theorem fund_selection_recomputed {L : Btcpy.Library}
    (self : FundTransaction.t) (wallet : Wallet)
    (htlc : HTLC) (amount locktime : Z) (version : Z) (network : string)
    (any : option Z) :
  let built :=
    object (FundTransaction.build_transaction self wallet htlc amount locktime) in
  (exists indexes,
     FundTransaction.previous_transaction_indexes built = Some indexes /\
     FundTransaction.get_previous_transaction_indexes built None = Ok indexes /\
     FundTransaction.get_previous_transaction_indexes built (Some amount)
     = Ok indexes) /\
  FundTransaction.get_previous_transaction_indexes
    (FundTransaction.init version network) any = Err TypeError.
Proof.
  intros built. subst built. split; [|reflexivity].
  destruct (fund_build_transaction_fields self wallet htlc amount locktime)
    as (_ & _ & Hamount & Hunspent).
  destruct (indexes_from_start_spec Shuttle.amount (unspent wallet) amount)
    as (n & Hn & E & _).
  destruct (fund_build_transaction_prefix self wallet htlc amount locktime n Hn E)
    as (Hidx & _).
  exists (seq 0 n). split; [exact Hidx|].
  unfold FundTransaction.get_previous_transaction_indexes.
  rewrite Hunspent, Hamount, E. split; reflexivity.
Qed.

(** X9: after a [build_transaction] that returned on a wallet that is not
    empty, [unsigned_raw] encodes the dict of the recorded fee, the raw
    transaction, the type [fund_unsigned] and one previous output (amount,
    index, script) per input of the transaction, in the order of the inputs;
    [raw] returns the same raw transaction. *)
Theorem fund_unsigned_raw_after_build {L : Btcpy.Library} `{Serializer}
    `{Codec} (self : FundTransaction.t) (wallet : Wallet) (htlc : HTLC)
    (amount locktime : Z) :
  let built :=
    object (FundTransaction.build_transaction self wallet htlc amount locktime) in
  raised (FundTransaction.build_transaction self wallet htlc amount locktime)
  = None ->
  unspent wallet <> [] ->
  exists tx n,
    Transaction.transaction (FundTransaction.base built) = Some tx /\
    Btcpy.ins tx = map Transaction.new_input (firstn n (unspent wallet)) /\
    FundTransaction.unsigned_raw built
    = Ok (b64_json_dumps
            (JDict [("fee", JInt (Utils.fee_calculator (Z.of_nat n) 2));
                    ("raw", JStr (hexlify tx));
                    ("outputs",
                     JList (map (fun u =>
                                   JDict [("amount", JInt (Shuttle.amount u));
                                          ("n", JInt (output_index u));
                                          ("script", JStr (script u))])
                              (firstn n (unspent wallet))));
                    ("type", JStr "fund_unsigned")])) /\
    Transaction.raw (FundTransaction.base built) = Ok (hexlify tx) /\
    Transaction.hash (FundTransaction.base built) = Ok (transaction_id tx).
Proof.
  intros built Hret Hne. subst built.
  destruct (fund_build_transaction_fields self wallet htlc amount locktime)
    as (_ & _ & _ & Hunspent).
  destruct (fund_build_transaction_spec self wallet htlc amount locktime)
    as (n & Hn & _ & Hidx & Hfee & _ & _
        & [(_ & Hr & _)|[(_ & (e & Hr & _) & _)|(_ & _ & Htx)]]).
  { rewrite Hr in Hret. discriminate. }
  { rewrite Hr in Hret. discriminate. }
  destruct (unspent wallet) as [|u us] eqn:Eu; [congruence|].
  eexists. exists n. split; [exact Htx|]. split; [reflexivity|].
  unfold FundTransaction.unsigned_raw, FundTransaction.unsigned_envelope,
    Transaction.raw, Transaction.hash.
  rewrite Htx, Hunspent, Hidx, Hfee, envelope_outputs_picked, picked_prefix.
  rewrite Nat.sub_0_r. repeat split.
Qed.

Lemma fund_unsigned_raw_after_build_witness :
  exists tx n,
    Transaction.transaction
      (FundTransaction.base
         (object (@FundTransaction.build_transaction Sample.library Sample.fund
                    Sample.rich_wallet Sample.contract 1000 0))) = Some tx /\
    Btcpy.ins tx
    = map Transaction.new_input (firstn n (unspent Sample.rich_wallet)) /\
    @Transaction.raw Fixture.serializer
      (FundTransaction.base
         (object (@FundTransaction.build_transaction Sample.library Sample.fund
                    Sample.rich_wallet Sample.contract 1000 0)))
    = Ok (@hexlify Fixture.serializer tx).
Proof.
  destruct (@fund_unsigned_raw_after_build Sample.library Fixture.serializer
              Sample.docstring_codec Sample.fund Sample.rich_wallet
              Sample.contract 1000 0 eq_refl)
    as (tx & n & Htx & Hins & _ & Hraw & _).
  - discriminate.
  - exists tx, n. split; [exact Htx|]. split; [exact Hins|exact Hraw].
Defined.

(** ** More on the Claim and Refund builders *)

(** X10: whenever the constructor of the Claim or Refund variant returns,
    the funding detail lists at least two outputs, the script of the first
    parsed as a P2SH script and the script of the second as a P2PKH script;
    the first output is taken as the contract (value and script), the second
    as the sender's, further outputs are ignored, addresses are main-network
    ones only for the network ["mainnet"], the fee is 0 and no transaction is
    there yet. *)
Theorem claim_refund_init {L : Btcpy.Library} (htlc_hash : string)
    (wallet : Wallet) (network : string) (version : Z)
    (detail : transaction_detail) :
  (forall c,
     ClaimTransaction.init htlc_hash wallet network version detail = Ok c ->
     exists contract change rest,
       detail = Some (contract :: change :: rest) /\
       Btcpy.is_p2sh (detail_script contract) = true /\
       Btcpy.is_p2pkh (detail_script change) = true /\
       ClaimTransaction.wallet c = wallet /\
       ClaimTransaction.htlc_transaction_id c = htlc_hash /\
       ClaimTransaction.htlc_value c = detail_value contract /\
       ClaimTransaction.htlc_script c
       = Btcpy.P2shScript_unhexlify (detail_script contract) /\
       ClaimTransaction.sender_script c
       = Btcpy.P2pkhScript_unhexlify (detail_script change) /\
       ClaimTransaction.sender_address c
       = Btcpy.P2pkh_address (detail_script change)
           (String.eqb network "mainnet") /\
       Transaction.transaction (ClaimTransaction.base c) = None /\
       Transaction.fee (ClaimTransaction.base c) = 0) /\
  (forall r,
     RefundTransaction.init htlc_hash wallet network version detail = Ok r ->
     exists contract change rest,
       detail = Some (contract :: change :: rest) /\
       Btcpy.is_p2sh (detail_script contract) = true /\
       Btcpy.is_p2pkh (detail_script change) = true /\
       RefundTransaction.wallet r = wallet /\
       RefundTransaction.htlc_transaction_id r = htlc_hash /\
       RefundTransaction.htlc_value r = detail_value contract /\
       RefundTransaction.htlc_script r
       = Btcpy.P2shScript_unhexlify (detail_script contract) /\
       RefundTransaction.sender_script r
       = Btcpy.P2pkhScript_unhexlify (detail_script change) /\
       RefundTransaction.sender_address r
       = Btcpy.P2pkh_address (detail_script change)
           (String.eqb network "mainnet") /\
       Transaction.transaction (RefundTransaction.base r) = None /\
       Transaction.fee (RefundTransaction.base r) = 0).
Proof.
  split.
  - intros c. unfold ClaimTransaction.init, Btcpy.unhexlify_P2sh,
      Btcpy.unhexlify_P2pkh.
    destruct detail as [[|contract [|change rest]]|]; try discriminate.
    + destruct (Btcpy.is_p2sh (detail_script contract)); cbn [bind];
        discriminate.
    + destruct (Btcpy.is_p2sh (detail_script contract)) eqn:Hs; cbn [bind];
        [|discriminate].
      destruct (Btcpy.is_p2pkh (detail_script change)) eqn:Hp; cbn [bind];
        [|discriminate].
      intros E. injection E as <-.
      exists contract, change, rest. cbn. repeat split; assumption.
  - intros r. unfold RefundTransaction.init, Btcpy.unhexlify_P2sh,
      Btcpy.unhexlify_P2pkh.
    destruct detail as [[|contract [|change rest]]|]; try discriminate.
    + destruct (Btcpy.is_p2sh (detail_script contract)); cbn [bind];
        discriminate.
    + destruct (Btcpy.is_p2sh (detail_script contract)) eqn:Hs; cbn [bind];
        [|discriminate].
      destruct (Btcpy.is_p2pkh (detail_script change)) eqn:Hp; cbn [bind];
        [|discriminate].
      intros E. injection E as <-.
      exists contract, change, rest. cbn. repeat split; assumption.
Qed.

Lemma claim_refund_init_witness :
  @ClaimTransaction.init Sample.library "f00d" Sample.recipient_wallet
    "testnet" 2 Sample.funding_detail = Ok Sample.claim /\
  exists contract change rest,
    Sample.funding_detail = Some (contract :: change :: rest) /\
    @Btcpy.is_p2sh Sample.library (detail_script contract) = true /\
    @Btcpy.is_p2pkh Sample.library (detail_script change) = true /\
    ClaimTransaction.htlc_value Sample.claim = detail_value contract.
Proof.
  split; [reflexivity|].
  destruct (@claim_refund_init Sample.library "f00d" Sample.recipient_wallet
              "testnet" 2 Sample.funding_detail) as (Hc & _).
  destruct (Hc Sample.claim eq_refl)
    as (contract & change & rest & Hd & Hs & Hp & _ & _ & Hv & _).
  exists contract, change, rest. repeat split; assumption.
Defined.

(** Building over a built object raises exactly when building the original
    would. *)
Lemma claim_rebuild_raised {L : Btcpy.Library} (c : ClaimTransaction.t)
    (b : Transaction.t) (locktime : Z) :
  Transaction.version b = Transaction.version (ClaimTransaction.base c) ->
  raised (ClaimTransaction.build_transaction (ClaimTransaction.set_base c b)
            locktime)
  = raised (ClaimTransaction.build_transaction c locktime).
Proof.
  intros Hv. unfold ClaimTransaction.build_transaction. cbn. rewrite Hv.
  destruct (bind _ _); reflexivity.
Qed.

Lemma refund_rebuild_raised {L : Btcpy.Library} (r : RefundTransaction.t)
    (b : Transaction.t) (locktime : Z) :
  Transaction.version b = Transaction.version (RefundTransaction.base r) ->
  raised (RefundTransaction.build_transaction (RefundTransaction.set_base r b)
            locktime)
  = raised (RefundTransaction.build_transaction r locktime).
Proof.
  intros Hv. unfold RefundTransaction.build_transaction. cbn. rewrite Hv.
  destruct (bind _ _); reflexivity.
Qed.

(** X11: when [build_transaction] of the Claim or Refund variant returns, the
    fee is 576, the single input spends output 0 of the funding transaction,
    the single output pays the funded value less 576, which is then not
    negative, to the object's wallet, so that output plus fee is the funded
    value; and building the built object again returns the same object
    whenever building the original would return.  No balance is checked by
    the code: with less than 576 funded, and nothing else for the library to
    refuse, the library's [OverflowError] for the negative output value is
    what is raised. *)
Theorem claim_refund_build_conserves_value {L : Btcpy.Library}
    (c : ClaimTransaction.t) (r : RefundTransaction.t) (locktime : Z) :
  (raised (ClaimTransaction.build_transaction c locktime) = None ->
   exists built tx,
     ClaimTransaction.build_transaction c locktime = Return built /\
     Transaction.transaction (ClaimTransaction.base built) = Some tx /\
     Transaction.fee (ClaimTransaction.base built) = 576 /\
     Btcpy.outs tx
     = [ {| Btcpy.value := ClaimTransaction.htlc_value c - 576; Btcpy.n := 0;
            Btcpy.script_pubkey :=
              Btcpy.P2pkhScript_unhexlify (p2pkh (ClaimTransaction.wallet c)) |} ] /\
     map Btcpy.txid (Btcpy.ins tx) = [ClaimTransaction.htlc_transaction_id c] /\
     map Btcpy.txout (Btcpy.ins tx) = [0] /\
     total Btcpy.value (Btcpy.outs tx) + Transaction.fee (ClaimTransaction.base built)
     = ClaimTransaction.htlc_value c /\
     576 <= ClaimTransaction.htlc_value c /\
     (forall locktime',
        raised (ClaimTransaction.build_transaction c locktime') = None ->
        ClaimTransaction.build_transaction built locktime'
        = ClaimTransaction.build_transaction c locktime')) /\
  (raised (RefundTransaction.build_transaction r locktime) = None ->
   exists built tx,
     RefundTransaction.build_transaction r locktime = Return built /\
     Transaction.transaction (RefundTransaction.base built) = Some tx /\
     Transaction.fee (RefundTransaction.base built) = 576 /\
     Btcpy.outs tx
     = [ {| Btcpy.value := RefundTransaction.htlc_value r - 576; Btcpy.n := 0;
            Btcpy.script_pubkey :=
              Btcpy.P2pkhScript_unhexlify (p2pkh (RefundTransaction.wallet r)) |} ] /\
     map Btcpy.txid (Btcpy.ins tx) = [RefundTransaction.htlc_transaction_id r] /\
     map Btcpy.txout (Btcpy.ins tx) = [0] /\
     total Btcpy.value (Btcpy.outs tx) + Transaction.fee (RefundTransaction.base built)
     = RefundTransaction.htlc_value r /\
     576 <= RefundTransaction.htlc_value r /\
     (forall locktime',
        raised (RefundTransaction.build_transaction r locktime') = None ->
        RefundTransaction.build_transaction built locktime'
        = RefundTransaction.build_transaction r locktime')) /\
  (ClaimTransaction.htlc_value c < 576 ->
   Btcpy.is_p2pkh (p2pkh (ClaimTransaction.wallet c)) = true ->
   0 <= locktime < 2 ^ 32 ->
   Btcpy.serializes (Transaction.version (ClaimTransaction.base c))
     [ {| Btcpy.txid := ClaimTransaction.htlc_transaction_id c; Btcpy.txout := 0;
          Btcpy.script_sig := Btcpy.ScriptSig_empty;
          Btcpy.sequence := Btcpy.Sequence_max |} ] = true ->
   raised (ClaimTransaction.build_transaction c locktime) = Some OverflowError) /\
  (RefundTransaction.htlc_value r < 576 ->
   Btcpy.is_p2pkh (p2pkh (RefundTransaction.wallet r)) = true ->
   0 <= locktime < 2 ^ 32 ->
   Btcpy.serializes (Transaction.version (RefundTransaction.base r))
     [ {| Btcpy.txid := RefundTransaction.htlc_transaction_id r; Btcpy.txout := 0;
          Btcpy.script_sig := Btcpy.ScriptSig_empty;
          Btcpy.sequence := Btcpy.Sequence_max |} ] = true ->
   raised (RefundTransaction.build_transaction r locktime) = Some OverflowError).
Proof.
  split; [|split; [|split]].
  - intros Hret.
    destruct (claim_build_transaction_inv c locktime Hret) as (_ & _ & Hv & E).
    rewrite E. do 2 eexists. split; [reflexivity|]. cbn.
    repeat split; try reflexivity; try (unfold total; cbn; lia).
    intros locktime' Hret'.
    match goal with
    | |- ClaimTransaction.build_transaction ?o _ = _ =>
        assert (Hagain : raised (ClaimTransaction.build_transaction o locktime')
                         = None)
          by (etransitivity;
              [eapply (claim_rebuild_raised c); reflexivity|exact Hret'])
    end.
    destruct (claim_build_transaction_inv c locktime' Hret') as (_ & _ & _ & ->).
    destruct (claim_build_transaction_inv _ locktime' Hagain) as (_ & _ & _ & ->).
    reflexivity.
  - intros Hret.
    destruct (refund_build_transaction_inv r locktime Hret) as (_ & _ & Hv & E).
    rewrite E. do 2 eexists. split; [reflexivity|]. cbn.
    repeat split; try reflexivity; try (unfold total; cbn; lia).
    intros locktime' Hret'.
    match goal with
    | |- RefundTransaction.build_transaction ?o _ = _ =>
        assert (Hagain : raised (RefundTransaction.build_transaction o locktime')
                         = None)
          by (etransitivity;
              [eapply (refund_rebuild_raised r); reflexivity|exact Hret'])
    end.
    destruct (refund_build_transaction_inv r locktime' Hret') as (_ & _ & _ & ->).
    destruct (refund_build_transaction_inv _ locktime' Hagain) as (_ & _ & _ & ->).
    reflexivity.
  - intros Hlow Hp Hl Hser.
    unfold ClaimTransaction.build_transaction, Btcpy.unhexlify_P2pkh,
      Btcpy.Locktime, Btcpy.new_transaction. cbn.
    rewrite Hp. cbn [bind].
    replace (0 <=? locktime) with true by (symmetry; apply Z.leb_le; lia).
    replace (locktime <? 4294967296) with true
      by (symmetry; apply Z.ltb_lt; lia).
    cbn [andb bind]. rewrite Hser. cbn [negb].
    replace (0 <=? ClaimTransaction.htlc_value c - 576) with false
      by (symmetry; apply Z.leb_gt; lia).
    reflexivity.
  - intros Hlow Hp Hl Hser.
    unfold RefundTransaction.build_transaction, Btcpy.unhexlify_P2pkh,
      Btcpy.Locktime, Btcpy.new_transaction. cbn.
    rewrite Hp. cbn [bind].
    replace (0 <=? locktime) with true by (symmetry; apply Z.leb_le; lia).
    replace (locktime <? 4294967296) with true
      by (symmetry; apply Z.ltb_lt; lia).
    cbn [andb bind]. rewrite Hser. cbn [negb].
    replace (0 <=? RefundTransaction.htlc_value r - 576) with false
      by (symmetry; apply Z.leb_gt; lia).
    reflexivity.
Qed.

Lemma claim_refund_build_conserves_value_witness :
  raised (@ClaimTransaction.build_transaction Sample.library Sample.claim 0)
  = None /\
  exists built tx,
    @ClaimTransaction.build_transaction Sample.library Sample.claim 0
    = Return built /\
    Transaction.transaction (ClaimTransaction.base built) = Some tx /\
    Transaction.fee (ClaimTransaction.base built) = 576 /\
    map Btcpy.value (Btcpy.outs tx) = [9424].
Proof.
  split; [reflexivity|].
  destruct (@claim_refund_build_conserves_value Sample.library Sample.claim
              Sample.refund 0) as (Hc & _).
  destruct (Hc eq_refl) as (built & tx & Hb & Htx & Hfee & Houts & _).
  exists built, tx. split; [exact Hb|]. split; [exact Htx|].
  split; [exact Hfee|]. rewrite Houts. reflexivity.
Defined.



(** ** More on the envelope decoder *)

Section DecodingMore.
Context `{Codec} `{TransactionView}.

(** X13: whenever [decode_transaction_raw] returns, the text decodes to an
    object whose type is one of the six recognized strings and which carries
    [network], [raw] and [fee]; the network was selected and the raw
    transaction decoded without error; and the returned dict holds exactly the
    object's fee, type and network and that transaction view. *)
Theorem decode_transaction_raw_sound (transaction_raw : string)
    (offline : bool) (decoded : json) :
  Utils.decode_transaction_raw transaction_raw offline = Ok decoded ->
  exists loaded tag fee network raw tx,
    b64_json_loads transaction_raw = Some loaded /\
    getitem loaded "type" = Ok (JStr tag) /\
    In tag Utils.recognized_types /\
    getitem loaded "fee" = Ok fee /\
    getitem loaded "network" = Ok network /\
    getitem loaded "raw" = Ok raw /\
    select_network offline network = Ok tt /\
    decode_transaction offline network raw = Ok tx /\
    decoded = JDict [("fee", fee); ("type", JStr tag); ("tx", tx);
                     ("network", network)].
Proof.
  unfold Utils.decode_transaction_raw. intros Hdec.
  destruct (Utils.is_transaction_raw transaction_raw) eqn:Hok;
    [|discriminate Hdec].
  apply is_transaction_raw_true_iff in Hok.
  destruct Hok as (loaded & tag & Hload & Htype & Hin).
  cbn [negb] in Hdec. rewrite Hload in Hdec.
  destruct (getitem loaded "network") as [network|] eqn:Hnet;
    cbn [bind] in Hdec; [|discriminate Hdec].
  destruct (select_network offline network) as [[]|] eqn:Hsel;
    cbn [bind] in Hdec; [|discriminate Hdec].
  destruct (getitem loaded "raw") as [raw|] eqn:Hraw;
    cbn [bind] in Hdec; [|discriminate Hdec].
  destruct (decode_transaction offline network raw) as [tx|] eqn:Htx;
    cbn [bind] in Hdec; [|discriminate Hdec].
  destruct (getitem loaded "fee") as [fee|] eqn:Hfee;
    cbn [bind] in Hdec; [|discriminate Hdec].
  rewrite Htype in Hdec. cbn [bind] in Hdec. injection Hdec as <-.
  exists loaded, tag, fee, network, raw, tx. repeat split; assumption.
Qed.

(** X14: a recognized type is not enough for the decoder: on a text that
    [is_transaction_raw] accepts but whose object has no [network],
    [decode_transaction_raw] ends in [KeyError]; so it does when, the network
    being there and selected, [raw] is missing. *)
Theorem decode_transaction_raw_missing_field (transaction_raw : string)
    (offline : bool) (loaded : json) :
  Utils.is_transaction_raw transaction_raw = true ->
  b64_json_loads transaction_raw = Some loaded ->
  (getitem loaded "network" = Err KeyError ->
   Utils.decode_transaction_raw transaction_raw offline = Err KeyError) /\
  (forall network,
     getitem loaded "network" = Ok network ->
     select_network offline network = Ok tt ->
     getitem loaded "raw" = Err KeyError ->
     Utils.decode_transaction_raw transaction_raw offline = Err KeyError).
Proof.
  intros Hok Hload. unfold Utils.decode_transaction_raw.
  rewrite Hok, Hload. cbn [negb]. split.
  - intros ->. reflexivity.
  - intros network -> Hsel Hraw. cbn [bind]. rewrite Hsel. cbn [bind].
    rewrite Hraw. reflexivity.
Qed.

End DecodingMore.

Lemma decode_transaction_raw_sound_witness :
  exists loaded tag fee network raw tx,
    @b64_json_loads Sample.docstring_codec "eyJmZWUi" = Some loaded /\
    getitem loaded "type" = Ok (JStr tag) /\
    In tag Utils.recognized_types /\
    getitem loaded "fee" = Ok fee /\
    getitem loaded "network" = Ok network /\
    getitem loaded "raw" = Ok raw /\
    @select_network Sample.docstring_view true network = Ok tt /\
    @decode_transaction Sample.docstring_view true network raw = Ok tx /\
    JDict [("fee", JInt 678); ("type", JStr "bitcoin_fund_unsigned");
           ("tx", JDict [("hex", JStr "0200000001888be7ec")]);
           ("network", JStr "testnet")]
    = JDict [("fee", fee); ("type", JStr tag); ("tx", tx); ("network", network)].
Proof.
  apply (@decode_transaction_raw_sound Sample.docstring_codec
           Sample.docstring_view "eyJmZWUi" true). reflexivity.
Defined.

Lemma decode_transaction_raw_missing_field_witness :
  @Utils.is_transaction_raw Fixture.no_network_codec "eyJmZWUi" = true /\
  @Utils.decode_transaction_raw Fixture.no_network_codec Sample.docstring_view
    "eyJmZWUi" true = Err KeyError.
Proof.
  split; [reflexivity|].
  apply (@decode_transaction_raw_missing_field Fixture.no_network_codec
           Sample.docstring_view "eyJmZWUi" true Fixture.no_network_envelope);
    reflexivity.
Defined.

(** ** Submitting an envelope *)

(** One step through [submit_transaction_raw]: the outermost collaborator call
    or item access either raised, which ends the run, or gave a value. *)
Ltac lift_step H :=
  match type of H with
  | context [Submit.lift ?r _] =>
      let v := fresh "v" in
      let E := fresh "E" in
      destruct r as [v|] eqn:E; cbn [Submit.lift] in H; [|discriminate H]
  end.

Section Submitting.
Context `{Codec} `{TransactionView} `{Submit.Service}.

(** X15: [submit_transaction_raw] returns only for a text with a recognized
    type whose object carries [network], [raw] and [fee], and only when the
    service's answer holds a [success] entry that counts as true and a
    [txid]; the dict returned then has the object's fee, type and network, the
    service's [txid] as [transaction_id], and the date. *)
Theorem submit_transaction_raw_sound (transaction_raw : string)
    (submitted : json) :
  Submit.submit_transaction_raw transaction_raw = Submit.Submitted submitted ->
  exists loaded tag fee network raw url response success txid,
    b64_json_loads transaction_raw = Some loaded /\
    getitem loaded "type" = Ok (JStr tag) /\
    In tag Utils.recognized_types /\
    getitem loaded "fee" = Ok fee /\
    getitem loaded "network" = Ok network /\
    getitem loaded "raw" = Ok raw /\
    Submit.smartbit network = Ok url /\
    Submit.post_json (url ++ "/pushtx")%string raw = Ok response /\
    getitem response "success" = Ok success /\
    Submit.truthy success = true /\
    getitem response "txid" = Ok txid /\
    submitted = JDict [("fee", fee); ("type", JStr tag);
                       ("transaction_id", txid); ("network", network);
                       ("date", JStr Submit.utcnow)].
Proof.
  unfold Submit.submit_transaction_raw. intros Hsub.
  destruct (Utils.is_transaction_raw transaction_raw) eqn:Hok;
    [|discriminate Hsub].
  apply is_transaction_raw_true_iff in Hok.
  destruct Hok as (loaded & tag & Hload & Htype & Hin).
  cbn [negb] in Hsub. rewrite Hload in Hsub.
  destruct (getitem loaded "network") as [network|] eqn:Hnet;
    cbn [Submit.lift] in Hsub; [|discriminate Hsub].
  destruct (Submit.smartbit network) as [url|] eqn:Hurl;
    cbn [Submit.lift] in Hsub; [|discriminate Hsub].
  destruct (getitem loaded "raw") as [raw|] eqn:Hraw;
    cbn [Submit.lift] in Hsub; [|discriminate Hsub].
  destruct (Submit.post_json (url ++ "/pushtx")%string raw) as [response|]
    eqn:Hpost; cbn [Submit.lift] in Hsub; [|discriminate Hsub].
  destruct (Submit.key_in "success" response) as [present|] eqn:Hin';
    cbn [Submit.lift] in Hsub; [|discriminate Hsub].
  destruct present; cbn [negb] in Hsub; [|discriminate Hsub].
  destruct (getitem response "success") as [success|] eqn:Hsuccess;
    cbn [Submit.lift] in Hsub; [|discriminate Hsub].
  destruct (Submit.truthy success) eqn:Htruthy; cbn [negb] in Hsub.
  - destruct (getitem loaded "fee") as [fee|] eqn:Hfee;
      cbn [Submit.lift] in Hsub; [|discriminate Hsub].
    rewrite Htype in Hsub. cbn [Submit.lift] in Hsub.
    destruct (getitem response "txid") as [txid|] eqn:Htxid;
      cbn [Submit.lift] in Hsub; [|discriminate Hsub].
    injection Hsub as <-.
    exists loaded, tag, fee, network, raw, url, response, success, txid.
    repeat split; assumption.
  - repeat lift_step Hsub. discriminate Hsub.
Qed.

(** X16: what [submit_transaction_raw] refuses.  A text that
    [is_transaction_raw] rejects ends in [TransactionRawError] whatever the
    service would answer.  For an accepted text with [network] and [raw] that
    the service answered with a dict: a [success] entry that counts as false,
    beside an [error] dict with [message] and [code], ends in
    [APIError(message, code)]; no [success] entry at all ends in the
    [APIError] for an unknown error. *)
Theorem submit_transaction_raw_refusals (transaction_raw : string) :
  (Utils.is_transaction_raw transaction_raw = false ->
   Submit.submit_transaction_raw transaction_raw
   = Submit.Failed (Submit.Uncaught TransactionRawError)) /\
  (forall loaded network raw url fields,
     Utils.is_transaction_raw transaction_raw = true ->
     b64_json_loads transaction_raw = Some loaded ->
     getitem loaded "network" = Ok network ->
     Submit.smartbit network = Ok url ->
     getitem loaded "raw" = Ok raw ->
     Submit.post_json (url ++ "/pushtx")%string raw = Ok (JDict fields) ->
     (lookup "success" fields = None ->
      Submit.submit_transaction_raw transaction_raw
      = Submit.Failed Submit.APIError_unknown) /\
     (forall success error message code,
        lookup "success" fields = Some success ->
        Submit.truthy success = false ->
        lookup "error" fields = Some error ->
        getitem error "message" = Ok message ->
        getitem error "code" = Ok code ->
        Submit.submit_transaction_raw transaction_raw
        = Submit.Failed (Submit.APIError message code))).
Proof.
  unfold Submit.submit_transaction_raw. split.
  - intros ->. reflexivity.
  - intros loaded network raw url fields Hok Hload Hnet Hurl Hraw Hpost.
    rewrite Hok, Hload. cbn [negb]. rewrite Hnet. cbn [Submit.lift].
    rewrite Hurl. cbn [Submit.lift]. rewrite Hraw. cbn [Submit.lift].
    rewrite Hpost. cbn [Submit.lift Submit.key_in]. split.
    + intros ->. reflexivity.
    + intros success error message code Hs Hfalse He Hm Hc.
      cbn [getitem]. rewrite Hs. cbn [Submit.lift negb]. rewrite Hfalse.
      cbn [negb]. rewrite He. cbn [Submit.lift]. rewrite Hm. cbn [Submit.lift].
      rewrite Hc. reflexivity.
Qed.

End Submitting.

Lemma submit_transaction_raw_sound_witness :
  @Submit.submit_transaction_raw Sample.docstring_codec Fixture.accepting
    "eyJmZWUi"
  = Submit.Submitted
      (JDict [("fee", JInt 678); ("type", JStr "bitcoin_fund_unsigned");
              ("transaction_id", JStr "abc70fd3"); ("network", JStr "testnet");
              ("date", JStr "2020-06-01 12:00:00.000000")]) /\
  exists loaded tag fee network raw url response success txid,
    @b64_json_loads Sample.docstring_codec "eyJmZWUi" = Some loaded /\
    getitem loaded "type" = Ok (JStr tag) /\
    In tag Utils.recognized_types /\
    getitem loaded "fee" = Ok fee /\
    getitem loaded "network" = Ok network /\
    getitem loaded "raw" = Ok raw /\
    @Submit.smartbit Fixture.accepting network = Ok url /\
    @Submit.post_json Fixture.accepting (url ++ "/pushtx")%string raw
    = Ok response /\
    getitem response "success" = Ok success /\
    Submit.truthy success = true /\
    getitem response "txid" = Ok txid /\
    JDict [("fee", JInt 678); ("type", JStr "bitcoin_fund_unsigned");
           ("transaction_id", JStr "abc70fd3"); ("network", JStr "testnet");
           ("date", JStr "2020-06-01 12:00:00.000000")]
    = JDict [("fee", fee); ("type", JStr tag); ("transaction_id", txid);
             ("network", network);
             ("date", JStr (@Submit.utcnow Fixture.accepting))].
Proof.
  split; [reflexivity|].
  apply (@submit_transaction_raw_sound Sample.docstring_codec
           Fixture.accepting "eyJmZWUi"). reflexivity.
Defined.

Lemma submit_transaction_raw_refusals_witness :
  @Submit.submit_transaction_raw Sample.docstring_codec Fixture.refusing
    "eyJmZWUi"
  = Submit.Failed
      (Submit.APIError (JStr "TX decode failed") (JStr "REQ_ERROR")).
Proof.
  destruct (@submit_transaction_raw_refusals Sample.docstring_codec
              Fixture.refusing "eyJmZWUi") as (_ & Hrefuse).
  destruct (Hrefuse Sample.docstring_envelope (JStr "testnet")
              (JStr "0200000001888be7ec")
              "https://testnet-api.smartbit.com.au/v1/blockchain"
              [("success", JBool false);
               ("error", JDict [("code", JStr "REQ_ERROR");
                                ("message", JStr "TX decode failed")])]
              eq_refl eq_refl eq_refl eq_refl eq_refl eq_refl) as (_ & Hfalse).
  apply (Hfalse (JBool false)
           (JDict [("code", JStr "REQ_ERROR");
                   ("message", JStr "TX decode failed")])); reflexivity.
Defined.
